(** * ai-subtitle-creator: the theme-driven ASS subtitle renderer

    A shallow embedding of [auto_subtitle/effects.py],
    [auto_subtitle/theme_config.py] and [auto_subtitle/subtitle_renderer.py],
    and of the functions of [auto_subtitle/gui.py] that feed them (the
    segments of the editor, its time fields, the theme it saves), followed
    by the properties the specification states about them and by further
    properties of the code.

    Modelling conventions.
    - A Python [str] is a [string]; its characters are the code points
      below 256.
    - A Python [int] is a [Z].
    - A time in seconds (a Python [float], or an [int] where the caller
      passes one) is an exact rational [Q]: the arithmetic of the source
      is modelled without binary64 rounding.
    - A [dict] literal used as a lookup table is a [gmap]; a transcript
      segment, whose keys the code reads with [.get(key, default)], is a
      record of optional fields.
    - A function that can raise returns a [result]. *)

From Stdlib Require Import ZArith QArith Qround Lia Lqa Ascii String List.
From stdpp Require Import base strings gmap list.

Import ListNotations.
Local Open Scope string_scope.
Local Open Scope Z_scope.

(* stdpp freezes string concatenation under [simpl]; the proofs below
   compute with it. *)
#[local] Arguments String.append !s1 s2 : simpl nomatch.

(** Linear arithmetic with quotients and remainders by constants. *)
Ltac zlia := Z.div_mod_to_equations; lia.

(** ** Python primitives *)

Module Py.

(** Exceptions the modelled code raises. The first two are Python
    [ValueError]s: [InvalidHexColor h] is the one [hex_to_ass_color] raises
    itself (message "Invalid hex color: h"), [InvalidLiteral s] is the one
    [int(s, 16)] raises. [AttributeError] is what [x.get] raises on a value
    that is not a dict. [IllTyped key] is not a Python exception: it marks
    the edge of the typed theme model, see [ThemeConfig.get_str]. *)
Inductive exn : Type :=
| InvalidHexColor (h : string)
| InvalidLiteral (s : string)
| AttributeError
| IllTyped (key : string).

Inductive result (A : Type) : Type :=
| Ok (a : A)
| Raise (e : exn).
Arguments Ok {A} a.
Arguments Raise {A} e.

Definition bind {A B} (r : result A) (k : A -> result B) : result B :=
  match r with
  | Ok a => k a
  | Raise e => Raise e
  end.

Local Notation "'let*' x ':=' r 'in' k" := (bind r (fun x => k))
  (at level 10, x name, r at level 100, k at level 200).


Definition is_value_error (e : exn) : bool :=
  match e with
  | InvalidHexColor _ | InvalidLiteral _ => true
  | _ => false
  end.

(** [for x in l: s = body(s, x)], stopping at the first exception. *)
Fixpoint for_each {A S} (body : S -> A -> result S) (l : list A) (s : S)
    : result S :=
  match l with
  | [] => Ok s
  | x :: rest => let* s' := body s x in for_each body rest s'
  end.

(** [str.isspace] on the code points below 256. *)
Definition is_space (c : ascii) : bool :=
  let n := nat_of_ascii c in
  ((9 <=? n) && (n <=? 13) || (28 <=? n) && (n <=? 32)
   || (n =? 133) || (n =? 160))%nat.

Definition is_empty (s : string) : bool :=
  match s with EmptyString => true | String _ _ => false end.

(** [s.lstrip(chars)], [s.rstrip(chars)] for a set of characters given as
    a predicate. *)
Fixpoint lstrip_by (p : ascii -> bool) (s : string) : string :=
  match s with
  | EmptyString => EmptyString
  | String c r => if p c then lstrip_by p r else s
  end.

Fixpoint rstrip_by (p : ascii -> bool) (s : string) : string :=
  match s with
  | EmptyString => EmptyString
  | String c r =>
      let r' := rstrip_by p r in
      if is_empty r' && p c then EmptyString else String c r'
  end.

(** [s.strip()] *)
Definition strip (s : string) : string :=
  rstrip_by is_space (lstrip_by is_space s).

(** [s.split()]: maximal runs of non-space characters. *)
Fixpoint split_from (s : string) (cur : string) : list string :=
  match s with
  | EmptyString => if is_empty cur then [] else [cur]
  | String c r =>
      if is_space c
      then (if is_empty cur then split_from r EmptyString
            else cur :: split_from r EmptyString)
      else split_from r (cur ++ String c EmptyString)
  end.

Definition split (s : string) : list string := split_from s EmptyString.

(** [sep.join(parts)] *)
Fixpoint join (sep : string) (parts : list string) : string :=
  match parts with
  | [] => EmptyString
  | [p] => p
  | p :: rest => p ++ sep ++ join sep rest
  end.

(** [s[i:j]] for [0 <= i <= j]. *)
Definition slice (i j : nat) (s : string) : string :=
  substring i (j - i) s.

(** *** Integers to text *)

Definition digit_char (d : Z) : ascii :=
  if d <? 10 then ascii_of_nat (48 + Z.to_nat d)
  else ascii_of_nat (55 + Z.to_nat d).

(** The digits of [n >= 0] in [base], most significant first, put in front
    of [acc]; [fuel] bounds the number of digits. *)
Fixpoint digits_from (base : Z) (fuel : nat) (n : Z) (acc : string) : string :=
  match fuel with
  | O => acc
  | S fuel' =>
      let acc' := String (digit_char (n mod base)) acc in
      if n / base =? 0 then acc'
      else digits_from base fuel' (n / base) acc'
  end.

Definition digits (base : Z) (n : Z) : string :=
  digits_from base (S (Z.to_nat (Z.log2 n))) n EmptyString.

Fixpoint zeros (k : nat) : string :=
  match k with
  | O => EmptyString
  | S k' => String "0" (zeros k')
  end.

(** [format(n, "0{width}d")] and [format(n, "0{width}X")]: sign first,
    then zeros up to the width, then the digits. *)
Definition format_zero_padded (base : Z) (width : nat) (n : Z) : string :=
  let sign := if n <? 0 then "-" else "" in
  let body := digits base (Z.abs n) in
  sign ++ zeros (width - String.length sign - String.length body) ++ body.

(** [f"{n}"] / [str(n)] *)
Definition str_int (n : Z) : string := format_zero_padded 10 0 n.
(** [f"{n:02d}"] *)
Definition format_02d (n : Z) : string := format_zero_padded 10 2 n.
(** [f"{n:02X}"] *)
Definition format_02X (n : Z) : string := format_zero_padded 16 2 n.

(** *** Text to integers: [int(s, 16)] *)

Definition hex_val (c : ascii) : option Z :=
  let n := nat_of_ascii c in
  if ((48 <=? n) && (n <=? 57))%nat then Some (Z.of_nat n - 48)
  else if ((65 <=? n) && (n <=? 70))%nat then Some (Z.of_nat n - 55)
  else if ((97 <=? n) && (n <=? 102))%nat then Some (Z.of_nat n - 87)
  else None.

Definition is_hex_digit (c : ascii) : bool :=
  match hex_val c with Some _ => true | None => false end.

(** Where the scan of the digits stands: nothing read yet, just after the
    "0x" prefix, after a digit, after an underscore. *)
Inductive scan_state : Type := AtStart | AfterPrefix | AfterDigit | AfterUnderscore.

Fixpoint scan_hex (st : scan_state) (acc : Z) (s : string) : option Z :=
  match s with
  | EmptyString =>
      match st with AfterDigit => Some acc | _ => None end
  | String c r =>
      if Ascii.eqb c "_" then
        match st with
        | AfterPrefix | AfterDigit => scan_hex AfterUnderscore acc r
        | _ => None
        end
      else
        match hex_val c with
        | Some d => scan_hex AfterDigit (16 * acc + d) r
        | None => None
        end
  end.

Definition scan_prefixed (s : string) : option Z :=
  match s with
  | String "0" (String x r) =>
      if Ascii.eqb x "x" || Ascii.eqb x "X" then scan_hex AfterPrefix 0 r
      else scan_hex AtStart 0 s
  | _ => scan_hex AtStart 0 s
  end.

Definition scan_signed (s : string) : option Z :=
  match s with
  | String "+" r => scan_prefixed r
  | String "-" r => option_map Z.opp (scan_prefixed r)
  | _ => scan_prefixed s
  end.

Definition int_base16 (s : string) : result Z :=
  match scan_signed (strip s) with
  | Some n => Ok n
  | None => Raise (InvalidLiteral s)
  end.

(** *** Numbers *)

(** [int(x)] for a float [x]: truncation towards zero. *)
Definition int_of (x : Q) : Z := Z.quot (Qnum x) (Zpos (Qden x)).

(** [x // m] and [x % m] on floats, for a positive [m]. *)
Definition floordiv (x m : Q) : Q := inject_Z (Qfloor (x / m)).
Definition mod_ (x m : Q) : Q := (x - m * inject_Z (Qfloor (x / m)))%Q.

End Py.

Notation "'let*' x ':=' r 'in' k" := (Py.bind r (fun x => k))
  (at level 10, x name, r at level 100, k at level 200).

(** ** effects.py *)

Module Effects.
Import Py.

(** [hex_to_ass_color]: "#RRGGBB" or "#RRGGBBAA" to "&HAABBGGRR". *)
Definition hex_to_ass_color (hex_color : string) : result string :=
  let hex_color := lstrip_by (Ascii.eqb "#") hex_color in
  let* rgba :=
    if (String.length hex_color =? 6)%nat then
      let* r := int_base16 (slice 0 2 hex_color) in
      let* g := int_base16 (slice 2 4 hex_color) in
      let* b := int_base16 (slice 4 6 hex_color) in
      Ok (r, g, b, 0)
    else if (String.length hex_color =? 8)%nat then
      let* r := int_base16 (slice 0 2 hex_color) in
      let* g := int_base16 (slice 2 4 hex_color) in
      let* b := int_base16 (slice 4 6 hex_color) in
      let* alpha := int_base16 (slice 6 8 hex_color) in
      Ok (r, g, b, 255 - alpha)
    else Raise (InvalidHexColor hex_color) in
  let '(r, g, b, a) := rgba in
  Ok ("&H" ++ format_02X a ++ format_02X b ++ format_02X g ++ format_02X r).

(** [get_alignment_code]: the numpad code, by two tables with default 1. *)
Definition align_map : gmap string Z :=
  {[ "left" := 0; "center" := 1; "right" := 2 ]}.

Definition pos_base : gmap string Z :=
  {[ "bottom" := 1; "center" := 4; "top" := 7; "custom" := 1 ]}.

Definition get_alignment_code (position align : string) : Z :=
  default 1 (pos_base !! position) + default 1 (align_map !! align).

Definition get_fade_effect (entry_ms exit_ms : Z) : string :=
  "\fad(" ++ str_int entry_ms ++ "," ++ str_int exit_ms ++ ")".

Definition get_pop_in_effect (duration : Z) : string :=
  "\fscx50\fscy50\t(0," ++ str_int duration ++ ",\fscx100\fscy100)".

Definition get_pop_out_effect (start_time duration : Z) : string :=
  "\t(" ++ str_int start_time ++ "," ++ str_int (start_time + duration)
    ++ ",\fscx50\fscy50\alpha&HFF&)".

Definition get_bounce_effect (duration : Z) : string :=
  let t1 := duration / 3 in
  let t2 := (duration * 2) / 3 in
  "\fscx80\fscy80"
    ++ "\t(0," ++ str_int t1 ++ ",\fscx110\fscy110)"
    ++ "\t(" ++ str_int t1 ++ "," ++ str_int t2 ++ ",\fscx95\fscy95)"
    ++ "\t(" ++ str_int t2 ++ "," ++ str_int duration ++ ",\fscx100\fscy100)".

Definition entry_effects (duration : Z) : gmap string string :=
  {[ "none" := "";
     "fade" := get_fade_effect duration 0;
     "pop" := get_pop_in_effect duration;
     "slide_up" := "\fad(" ++ str_int duration ++ ",0)";
     "slide_down" := "\fad(" ++ str_int duration ++ ",0)";
     "bounce" := get_bounce_effect duration ]}.

Definition get_entry_effect (effect_name : string) (duration : Z) : string :=
  default "" (entry_effects duration !! effect_name).

Definition exit_effects (duration total_duration : Z) : gmap string string :=
  let start := total_duration - duration in
  {[ "none" := "";
     "fade" := get_fade_effect 0 duration;
     "pop" := get_pop_out_effect start duration;
     "slide_up" := "\fad(0," ++ str_int duration ++ ")";
     "slide_down" := "\fad(0," ++ str_int duration ++ ")";
     "bounce" := "\fad(0," ++ str_int duration ++ ")" ]}.

Definition get_exit_effect (effect_name : string) (duration total_duration : Z)
  : string :=
  default "" (exit_effects duration total_duration !! effect_name).

(** [format_time_ass]: H:MM:SS.cc *)
Definition format_time_ass (seconds : Q) : string :=
  let hours := int_of (floordiv seconds 3600) in
  let minutes := int_of (floordiv (mod_ seconds 3600) 60) in
  let secs := int_of (mod_ seconds 60) in
  let centiseconds := int_of (mod_ seconds 1 * 100)%Q in
  str_int hours ++ ":" ++ format_02d minutes ++ ":" ++ format_02d secs
    ++ "." ++ format_02d centiseconds.

(** A Whisper segment and its optional per-word entries: each key may be
    missing, the code reads all of them with [.get]. *)
Record word_entry : Type := {
  w_word : option string;
  w_start : option Q;
  w_end : option Q;
}.

Record segment : Type := {
  seg_start : option Q;
  seg_end : option Q;
  seg_text : option string;
  seg_words : option (list word_entry);
}.

(** An element of the list [calculate_word_timings] returns: a dict with
    the keys 'word', 'start', 'end'. *)
Record word_timing : Type := {
  wt_word : string;
  wt_start : Q;
  wt_end : Q;
}.

Definition sum_len (words : list string) : Z :=
  fold_left (fun acc w => acc + Z.of_nat (String.length w)) words 0.

(** One turn of the estimation loop: the state is the list built so far
    and [current_time]. *)
Definition estimate_step (total_chars : Z) (segment_duration : Q) (n_words : Z)
    (st : list word_timing * Q) (w : string) : list word_timing * Q :=
  let '(word_timings, current_time) := st in
  let word_duration :=
    if total_chars >? 0
    then ((inject_Z (Z.of_nat (String.length w)) / inject_Z total_chars)
            * segment_duration)%Q
    else (segment_duration / inject_Z n_words)%Q in
  ((word_timings ++ [ {| wt_word := w;
                        wt_start := current_time;
                        wt_end := (current_time + word_duration)%Q |} ])%list,
   (current_time + word_duration)%Q).

Definition calculate_word_timings (seg : segment) : list word_timing :=
  match seg_words seg with
  | Some ws =>
      map (fun w => {| wt_word := strip (default "" (w_word w));
                       wt_start := default 0%Q (w_start w);
                       wt_end := default 0%Q (w_end w) |})
          (List.filter
             (fun w => negb (is_empty (strip (default "" (w_word w))))) ws)
  | None =>
      let text := strip (default "" (seg_text seg)) in
      let words := split text in
      match words with
      | [] => []
      | _ =>
          let segment_start := default 0%Q (seg_start seg) in
          let segment_end := default 0%Q (seg_end seg) in
          let segment_duration := (segment_end - segment_start)%Q in
          let total_chars := sum_len words in
          fst (fold_left
                 (estimate_step total_chars segment_duration
                    (Z.of_nat (length words)))
                 words ([], segment_start))
      end
  end.

(** One turn of the chunking loop: the state is [chunks] and
    [current_chunk]. *)
Definition chunk_step {A} (max_words : Z) (st : list (list A) * list A) (w : A)
    : list (list A) * list A :=
  let '(chunks, current_chunk) := st in
  let current_chunk := (current_chunk ++ [w])%list in
  if Z.of_nat (length current_chunk) >=? max_words
  then ((chunks ++ [current_chunk])%list, [])
  else (chunks, current_chunk).

Definition chunk_words {A} (words : list A) (max_words : Z) : list (list A) :=
  let '(chunks, current_chunk) :=
    fold_left (chunk_step max_words) words ([], []) in
  match current_chunk with
  | [] => chunks
  | _ => (chunks ++ [current_chunk])%list
  end.

(** [hex_to_rgb]: the three channels of a colour; the length is not
    checked, the slices take what is there. *)
Definition hex_to_rgb (hex_color : string) : result (Z * Z * Z) :=
  let hex_color := lstrip_by (Ascii.eqb "#") hex_color in
  let* r := int_base16 (slice 0 2 hex_color) in
  let* g := int_base16 (slice 2 4 hex_color) in
  let* b := int_base16 (slice 4 6 hex_color) in
  Ok (r, g, b).

(** [rgb_to_hex] *)
Definition rgb_to_hex (r g b : Z) : string :=
  "#" ++ format_02X r ++ format_02X g ++ format_02X b.

(** [get_highlight_style]: the colour is converted first, then the table of
    override tags is read with the plain colour tag as default. *)
Definition highlight_styles (ass_color : string) : gmap string string :=
  {[ "color" := "\c" ++ ass_color;
     "background" := "\3c" ++ ass_color ++ "\bord4";
     "scale" := "\c" ++ ass_color ++ "\fscx110\fscy110";
     "underline" := "\c" ++ ass_color ++ "\u1";
     "glow" := "\c" ++ ass_color ++ "\blur2" ]}.

Definition get_highlight_style (style highlight_color : string)
    : result string :=
  let* ass_color := hex_to_ass_color highlight_color in
  Ok (default ("\c" ++ ass_color) (highlight_styles ass_color !! style)).

End Effects.

(** ** theme_config.py *)

Module ThemeConfig.
Import Py.

Record FontConfig : Type := {
  font_family : string;
  font_size : Z;
  font_weight : string;
  font_style : string;
}.

Record ColorConfig : Type := {
  colors_primary : string;
  colors_highlight : string;
  colors_background : string;
  colors_outline : string;
  colors_shadow : string;
}.

Record HighlightConfig : Type := {
  highlight_enabled : bool;
  highlight_mode : string;
  highlight_style : string;
  highlight_transition : string;
}.

Record LayoutConfig : Type := {
  layout_position : string;
  layout_custom_y : option Q;
  layout_max_words_per_line : Z;
  layout_alignment : string;
  layout_margin_x : Z;
  layout_margin_y : Z;
}.

Record BackgroundConfig : Type := {
  background_enabled : bool;
  background_style : string;
  background_padding : Z;
  background_border_radius : Z;
  background_opacity : Q;
}.

Record OutlineEffect : Type := {
  outline_enabled : bool;
  outline_width : Z;
}.

Record ShadowEffect : Type := {
  shadow_enabled : bool;
  shadow_offset_x : Z;
  shadow_offset_y : Z;
  shadow_blur : Z;
}.

Record EffectsConfig : Type := {
  effects_outline : OutlineEffect;
  effects_shadow : ShadowEffect;
}.

Record AnimationConfig : Type := {
  animation_entry : string;
  animation_exit : string;
  animation_duration : Z;
  animation_word_stagger : Z;
}.

Record SubtitleThemeConfig : Type := {
  name : string;
  version : string;
  font : FontConfig;
  colors : ColorConfig;
  highlight : HighlightConfig;
  layout : LayoutConfig;
  background : BackgroundConfig;
  effects : EffectsConfig;
  animation : AnimationConfig;
}.

(** The dataclass defaults. *)
Definition default_font : FontConfig :=
  {| font_family := "Arial"; font_size := 72;
     font_weight := "bold"; font_style := "normal" |}.

Definition default_colors : ColorConfig :=
  {| colors_primary := "#FFFFFF"; colors_highlight := "#00FF88";
     colors_background := "#000000CC"; colors_outline := "#000000";
     colors_shadow := "#00000080" |}.

Definition default_highlight : HighlightConfig :=
  {| highlight_enabled := true; highlight_mode := "word";
     highlight_style := "color"; highlight_transition := "instant" |}.

Definition default_layout : LayoutConfig :=
  {| layout_position := "bottom"; layout_custom_y := None;
     layout_max_words_per_line := 5; layout_alignment := "center";
     layout_margin_x := 50; layout_margin_y := 100 |}.

Definition default_background : BackgroundConfig :=
  {| background_enabled := true; background_style := "single";
     background_padding := 20; background_border_radius := 15;
     background_opacity := (8 # 10)%Q |}.

Definition default_outline : OutlineEffect :=
  {| outline_enabled := true; outline_width := 3 |}.

Definition default_shadow : ShadowEffect :=
  {| shadow_enabled := false; shadow_offset_x := 4;
     shadow_offset_y := 4; shadow_blur := 2 |}.

Definition default_effects : EffectsConfig :=
  {| effects_outline := default_outline; effects_shadow := default_shadow |}.

Definition default_animation : AnimationConfig :=
  {| animation_entry := "pop"; animation_exit := "fade";
     animation_duration := 200; animation_word_stagger := 50 |}.

(** [SubtitleThemeConfig()] *)
Definition default_theme : SubtitleThemeConfig :=
  {| name := "default"; version := "1.0";
     font := default_font; colors := default_colors;
     highlight := default_highlight; layout := default_layout;
     background := default_background; effects := default_effects;
     animation := default_animation |}.

(** The structured document [from_dict] reads and [to_dict] builds: what
    [yaml.safe_load] returns. *)
#[warnings="-register-all"]
Inductive value : Type :=
| VNone
| VBool (b : bool)
| VInt (z : Z)
| VFloat (q : Q)
| VStr (s : string)
| VList (l : list value)
| VDict (d : gmap string value).

(** [d.get(key, default)] at the type the dataclass field declares. The
    Python code stores whatever value the document holds; a value of
    another type than the field's annotation is outside this typed model
    and is reported as [IllTyped key] (not a Python exception). *)
Definition get_str (d : gmap string value) (key : string) (dflt : string)
    : result string :=
  match d !! key with
  | None => Ok dflt
  | Some (VStr s) => Ok s
  | Some _ => Raise (IllTyped key)
  end.

Definition get_int (d : gmap string value) (key : string) (dflt : Z)
    : result Z :=
  match d !! key with
  | None => Ok dflt
  | Some (VInt z) => Ok z
  | Some _ => Raise (IllTyped key)
  end.

Definition get_bool (d : gmap string value) (key : string) (dflt : bool)
    : result bool :=
  match d !! key with
  | None => Ok dflt
  | Some (VBool b) => Ok b
  | Some _ => Raise (IllTyped key)
  end.

Definition get_float (d : gmap string value) (key : string) (dflt : Q)
    : result Q :=
  match d !! key with
  | None => Ok dflt
  | Some (VFloat q) => Ok q
  | Some (VInt z) => Ok (inject_Z z)
  | Some _ => Raise (IllTyped key)
  end.

Definition get_opt_float (d : gmap string value) (key : string)
    (dflt : option Q) : result (option Q) :=
  match d !! key with
  | None => Ok dflt
  | Some VNone => Ok None
  | Some (VFloat q) => Ok (Some q)
  | Some (VInt z) => Ok (Some (inject_Z z))
  | Some _ => Raise (IllTyped key)
  end.

(** [x.get] on a value that is not a dict raises [AttributeError]. *)
Definition as_dict (v : value) : result (gmap string value) :=
  match v with
  | VDict d => Ok d
  | _ => Raise AttributeError
  end.

(** [if key in data: config.field = build(data[key])] *)
Definition section {A} (data : gmap string value) (key : string)
    (build : gmap string value -> result A) (current : A) : result A :=
  match data !! key with
  | None => Ok current
  | Some v => let* d := as_dict v in build d
  end.

Definition from_dict (data : value) : result SubtitleThemeConfig :=
  let config := default_theme in
  match data with
  | VNone => Ok config
  | _ =>
    let* data := as_dict data in
    let* name' := get_str data "name" (name config) in
    let* version' := get_str data "version" (version config) in
    let* font' :=
      section data "font" (fun font_data =>
        let* family := get_str font_data "family" (font_family (font config)) in
        let* size := get_int font_data "size" (font_size (font config)) in
        let* weight := get_str font_data "weight" (font_weight (font config)) in
        let* style := get_str font_data "style" (font_style (font config)) in
        Ok {| font_family := family; font_size := size;
              font_weight := weight; font_style := style |}) (font config) in
    let* colors' :=
      section data "colors" (fun colors_data =>
        let* primary := get_str colors_data "primary" (colors_primary (colors config)) in
        let* highlight := get_str colors_data "highlight" (colors_highlight (colors config)) in
        let* background := get_str colors_data "background" (colors_background (colors config)) in
        let* outline := get_str colors_data "outline" (colors_outline (colors config)) in
        let* shadow := get_str colors_data "shadow" (colors_shadow (colors config)) in
        Ok {| colors_primary := primary; colors_highlight := highlight;
              colors_background := background; colors_outline := outline;
              colors_shadow := shadow |}) (colors config) in
    let* highlight' :=
      section data "highlight" (fun hl_data =>
        let* enabled := get_bool hl_data "enabled" (highlight_enabled (highlight config)) in
        let* mode := get_str hl_data "mode" (highlight_mode (highlight config)) in
        let* style := get_str hl_data "style" (highlight_style (highlight config)) in
        let* transition := get_str hl_data "transition" (highlight_transition (highlight config)) in
        Ok {| highlight_enabled := enabled; highlight_mode := mode;
              highlight_style := style; highlight_transition := transition |})
        (highlight config) in
    let* layout' :=
      section data "layout" (fun layout_data =>
        let* position := get_str layout_data "position" (layout_position (layout config)) in
        let* custom_y := get_opt_float layout_data "custom_y" (layout_custom_y (layout config)) in
        let* max_words := get_int layout_data "max_words_per_line" (layout_max_words_per_line (layout config)) in
        let* alignment := get_str layout_data "alignment" (layout_alignment (layout config)) in
        let* margin_x := get_int layout_data "margin_x" (layout_margin_x (layout config)) in
        let* margin_y := get_int layout_data "margin_y" (layout_margin_y (layout config)) in
        Ok {| layout_position := position; layout_custom_y := custom_y;
              layout_max_words_per_line := max_words;
              layout_alignment := alignment;
              layout_margin_x := margin_x; layout_margin_y := margin_y |})
        (layout config) in
    let* background' :=
      section data "background" (fun bg_data =>
        let* enabled := get_bool bg_data "enabled" (background_enabled (background config)) in
        let* style := get_str bg_data "style" (background_style (background config)) in
        let* padding := get_int bg_data "padding" (background_padding (background config)) in
        let* border_radius := get_int bg_data "border_radius" (background_border_radius (background config)) in
        let* opacity := get_float bg_data "opacity" (background_opacity (background config)) in
        Ok {| background_enabled := enabled; background_style := style;
              background_padding := padding;
              background_border_radius := border_radius;
              background_opacity := opacity |}) (background config) in
    let* effects' :=
      section data "effects" (fun effects_data =>
        let* outline_data := as_dict (default (VDict ∅) (effects_data !! "outline")) in
        let* shadow_data := as_dict (default (VDict ∅) (effects_data !! "shadow")) in
        let* o_enabled := get_bool outline_data "enabled" (outline_enabled (effects_outline (effects config))) in
        let* o_width := get_int outline_data "width" (outline_width (effects_outline (effects config))) in
        let* s_enabled := get_bool shadow_data "enabled" (shadow_enabled (effects_shadow (effects config))) in
        let* s_offset_x := get_int shadow_data "offset_x" (shadow_offset_x (effects_shadow (effects config))) in
        let* s_offset_y := get_int shadow_data "offset_y" (shadow_offset_y (effects_shadow (effects config))) in
        let* s_blur := get_int shadow_data "blur" (shadow_blur (effects_shadow (effects config))) in
        Ok {| effects_outline :=
                {| outline_enabled := o_enabled; outline_width := o_width |};
              effects_shadow :=
                {| shadow_enabled := s_enabled; shadow_offset_x := s_offset_x;
                   shadow_offset_y := s_offset_y; shadow_blur := s_blur |} |})
        (effects config) in
    let* animation' :=
      section data "animation" (fun anim_data =>
        let* entry := get_str anim_data "entry" (animation_entry (animation config)) in
        let* exit := get_str anim_data "exit" (animation_exit (animation config)) in
        let* duration := get_int anim_data "duration" (animation_duration (animation config)) in
        let* word_stagger := get_int anim_data "word_stagger" (animation_word_stagger (animation config)) in
        Ok {| animation_entry := entry; animation_exit := exit;
              animation_duration := duration;
              animation_word_stagger := word_stagger |}) (animation config) in
    Ok {| name := name'; version := version'; font := font';
          colors := colors'; highlight := highlight'; layout := layout';
          background := background'; effects := effects';
          animation := animation' |}
  end.

Definition opt_float_value (o : option Q) : value :=
  match o with
  | None => VNone
  | Some q => VFloat q
  end.

Definition to_dict (self : SubtitleThemeConfig) : value :=
  VDict {[
    "name" := VStr (name self);
    "version" := VStr (version self);
    "font" := VDict {[
      "family" := VStr (font_family (font self));
      "size" := VInt (font_size (font self));
      "weight" := VStr (font_weight (font self));
      "style" := VStr (font_style (font self)) ]};
    "colors" := VDict {[
      "primary" := VStr (colors_primary (colors self));
      "highlight" := VStr (colors_highlight (colors self));
      "background" := VStr (colors_background (colors self));
      "outline" := VStr (colors_outline (colors self));
      "shadow" := VStr (colors_shadow (colors self)) ]};
    "highlight" := VDict {[
      "enabled" := VBool (highlight_enabled (highlight self));
      "mode" := VStr (highlight_mode (highlight self));
      "style" := VStr (highlight_style (highlight self));
      "transition" := VStr (highlight_transition (highlight self)) ]};
    "layout" := VDict {[
      "position" := VStr (layout_position (layout self));
      "custom_y" := opt_float_value (layout_custom_y (layout self));
      "max_words_per_line" := VInt (layout_max_words_per_line (layout self));
      "alignment" := VStr (layout_alignment (layout self));
      "margin_x" := VInt (layout_margin_x (layout self));
      "margin_y" := VInt (layout_margin_y (layout self)) ]};
    "background" := VDict {[
      "enabled" := VBool (background_enabled (background self));
      "style" := VStr (background_style (background self));
      "padding" := VInt (background_padding (background self));
      "border_radius" := VInt (background_border_radius (background self));
      "opacity" := VFloat (background_opacity (background self)) ]};
    "effects" := VDict {[
      "outline" := VDict {[
        "enabled" := VBool (outline_enabled (effects_outline (effects self)));
        "width" := VInt (outline_width (effects_outline (effects self))) ]};
      "shadow" := VDict {[
        "enabled" := VBool (shadow_enabled (effects_shadow (effects self)));
        "offset_x" := VInt (shadow_offset_x (effects_shadow (effects self)));
        "offset_y" := VInt (shadow_offset_y (effects_shadow (effects self)));
        "blur" := VInt (shadow_blur (effects_shadow (effects self))) ]} ]};
    "animation" := VDict {[
      "entry" := VStr (animation_entry (animation self));
      "exit" := VStr (animation_exit (animation self));
      "duration" := VInt (animation_duration (animation self));
      "word_stagger" := VInt (animation_word_stagger (animation self)) ]}
  ]}.

End ThemeConfig.

(** ** subtitle_renderer.py *)

Module SubtitleRenderer.
Import Py Effects ThemeConfig.

Record SubtitleRenderer : Type := {
  theme : SubtitleThemeConfig;
  video_width : Z;
  video_height : Z;
}.

Definition nl : string := String (ascii_of_nat 10) EmptyString.

(** The text of a template literal, line by line: every line ends with a
    line feed. *)
Definition unlines (ls : list string) : string :=
  fold_right (fun l acc => l ++ nl ++ acc) EmptyString ls.

Definition neq (a b : string) : bool := negb (String.eqb a b).

Definition generate_ass_header (self : SubtitleRenderer) : result string :=
  let th := theme self in
  let margin_v :=
    if String.eqb (layout_position (layout th)) "top"
    then layout_margin_y (layout th)
    else if String.eqb (layout_position (layout th)) "center"
    then (video_height self / 2) - 100
    else match layout_custom_y (layout th) with
         | Some custom_y =>
             int_of (inject_Z (video_height self) * custom_y / 100)%Q
         | None => layout_margin_y (layout th)
         end in
  let alignment :=
    get_alignment_code (layout_position (layout th))
      (layout_alignment (layout th)) in
  let* primary_color := hex_to_ass_color (colors_primary (colors th)) in
  let* secondary_color := hex_to_ass_color (colors_highlight (colors th)) in
  let* outline_color := hex_to_ass_color (colors_outline (colors th)) in
  let* back_color := hex_to_ass_color (colors_background (colors th)) in
  let bold := if String.eqb (font_weight (font th)) "bold" then -1 else 0 in
  let italic := if String.eqb (font_style (font th)) "italic" then -1 else 0 in
  let outline_width :=
    if outline_enabled (effects_outline (effects th))
    then outline_width (effects_outline (effects th)) else 0 in
  let shadow_depth :=
    if shadow_enabled (effects_shadow (effects th))
    then shadow_offset_x (effects_shadow (effects th)) else 0 in
  let border_style :=
    if background_enabled (background th)
       && String.eqb (background_style (background th)) "single"
    then 3 else 1 in
  let* highlight_color := hex_to_ass_color (colors_highlight (colors th)) in
  let style_fields (primary : string) : string :=
    font_family (font th) ++ "," ++ str_int (font_size (font th)) ++ ","
      ++ primary ++ "," ++ secondary_color ++ "," ++ outline_color ++ ","
      ++ back_color ++ "," ++ str_int bold ++ "," ++ str_int italic
      ++ ",0,0,100,100,0,0," ++ str_int border_style ++ ","
      ++ str_int outline_width ++ "," ++ str_int shadow_depth ++ ","
      ++ str_int alignment ++ "," ++ str_int (layout_margin_x (layout th))
      ++ "," ++ str_int (layout_margin_x (layout th)) ++ ","
      ++ str_int margin_v ++ ",1" in
  Ok (unlines [
    "[Script Info]";
    "Title: " ++ name th;
    "ScriptType: v4.00+";
    "WrapStyle: 0";
    "ScaledBorderAndShadow: yes";
    "YCbCr Matrix: TV.709";
    "PlayResX: " ++ str_int (video_width self);
    "PlayResY: " ++ str_int (video_height self);
    "";
    "[V4+ Styles]";
    "Format: Name, Fontname, Fontsize, PrimaryColour, SecondaryColour, OutlineColour, BackColour, Bold, Italic, Underline, StrikeOut, ScaleX, ScaleY, Spacing, Angle, BorderStyle, Outline, Shadow, Alignment, MarginL, MarginR, MarginV, Encoding";
    "Style: Default," ++ style_fields primary_color;
    "Style: Highlight," ++ style_fields highlight_color;
    "";
    "[Events]";
    "Format: Layer, Start, End, Style, Name, MarginL, MarginR, MarginV, Effect, Text"
  ]).

(** [f"Dialogue: 0,{start},{end},Default,,0,0,0,,{text}\n"] *)
Definition dialogue (start_ass end_ass text : string) : string :=
  "Dialogue: 0," ++ start_ass ++ "," ++ end_ass ++ ",Default,,0,0,0,,"
    ++ text ++ nl.

Definition render_segment_simple (self : SubtitleRenderer) (seg : segment)
    : string :=
  let th := theme self in
  let start := format_time_ass (default 0%Q (seg_start seg)) in
  let end_ := format_time_ass (default 0%Q (seg_end seg)) in
  let text := strip (default "" (seg_text seg)) in
  let effects := "" in
  let duration_ms :=
    int_of ((default 0%Q (seg_end seg) - default 0%Q (seg_start seg)) * 1000)%Q in
  let effects :=
    if neq (animation_entry (animation th)) "none"
    then effects ++ get_entry_effect (animation_entry (animation th))
                      (animation_duration (animation th))
    else effects in
  let effects :=
    if neq (animation_exit (animation th)) "none"
    then effects ++ get_exit_effect (animation_exit (animation th))
                      (animation_duration (animation th)) duration_ms
    else effects in
  let text :=
    if negb (is_empty effects) then "{" ++ effects ++ "}" ++ text else text in
  dialogue start end_ text.

(** The body of the loop over the words of a chunk in
    [render_segment_karaoke]; the state is [text_parts]. *)
Definition karaoke_word (self : SubtitleRenderer) (chunk_start : Q)
    (text_parts : list string) (word_info : word_timing)
    : result (list string) :=
  let th := theme self in
  let word := wt_word word_info in
  if highlight_enabled (highlight th) then
    let word_start_rel := int_of ((wt_start word_info - chunk_start) * 1000)%Q in
    let word_end_rel := int_of ((wt_end word_info - chunk_start) * 1000)%Q in
    let* primary_color := hex_to_ass_color (colors_primary (colors th)) in
    let* highlight_color := hex_to_ass_color (colors_highlight (colors th)) in
    let color_tags :=
      "\c" ++ primary_color
        ++ "\t(" ++ str_int word_start_rel ++ "," ++ str_int word_start_rel
        ++ ",\c" ++ highlight_color ++ ")"
        ++ "\t(" ++ str_int word_end_rel ++ "," ++ str_int word_end_rel
        ++ ",\c" ++ primary_color ++ ")" in
    let part := "{" ++ color_tags ++ "}" ++ word in
    Ok (text_parts ++ [part])%list
  else Ok (text_parts ++ [word])%list.

(** The animation preamble of a chunk in [render_segment_karaoke]: the
    entry and exit effects of the catalogue, against the chunk's duration. *)
Definition karaoke_preamble (self : SubtitleRenderer) (duration_ms : Z)
    : string :=
  let th := theme self in
  let entry_effect :=
    if neq (animation_entry (animation th)) "none"
    then get_entry_effect (animation_entry (animation th))
           (animation_duration (animation th))
    else "" in
  let exit_effect :=
    if neq (animation_exit (animation th)) "none"
    then get_exit_effect (animation_exit (animation th))
           (animation_duration (animation th)) duration_ms
    else "" in
  if negb (is_empty entry_effect) || negb (is_empty exit_effect)
  then "{" ++ entry_effect ++ exit_effect ++ "}" else "".

(** The body of the loop over the chunks; the state is [lines]. *)
Definition karaoke_chunk (self : SubtitleRenderer) (lines : list string)
    (chunk : list word_timing) : result (list string) :=
  match chunk with
  | [] => Ok lines
  | first :: _ =>
      let chunk_start := wt_start first in
      let chunk_end := wt_end (List.last chunk first) in
      let start_ass := format_time_ass chunk_start in
      let end_ass := format_time_ass chunk_end in
      let duration_ms := int_of ((chunk_end - chunk_start) * 1000)%Q in
      let preamble := karaoke_preamble self duration_ms in
      let* text_parts := for_each (karaoke_word self chunk_start) chunk [] in
      let text := preamble ++ join " " text_parts in
      let line := dialogue start_ass end_ass text in
      Ok (lines ++ [line])%list
  end.

Definition render_segment_karaoke (self : SubtitleRenderer) (seg : segment)
    : result string :=
  let word_timings := calculate_word_timings seg in
  match word_timings with
  | [] => Ok (render_segment_simple self seg)
  | _ =>
      let chunks :=
        chunk_words word_timings
          (layout_max_words_per_line (layout (theme self))) in
      let* lines := for_each (karaoke_chunk self) chunks [] in
      Ok (join "" lines)
  end.

(** The body of the loop over the words of a chunk in
    [render_segment_per_word_background]. *)
Definition per_word_word (self : SubtitleRenderer) (chunk_start : Q)
    (text_parts : list string) (word_info : word_timing)
    : result (list string) :=
  let th := theme self in
  let word := wt_word word_info in
  let word_start := wt_start word_info in
  let word_end := wt_end word_info in
  let* highlight_color := hex_to_ass_color (colors_highlight (colors th)) in
  let* primary_color := hex_to_ass_color (colors_primary (colors th)) in
  let word_start_rel := int_of ((word_start - chunk_start) * 1000)%Q in
  let word_end_rel := int_of ((word_end - chunk_start) * 1000)%Q in
  let color_tags :=
    "\c" ++ primary_color
      ++ "\t(" ++ str_int word_start_rel ++ "," ++ str_int (word_start_rel + 50)
      ++ ",\c" ++ highlight_color ++ ")"
      ++ "\t(" ++ str_int word_end_rel ++ "," ++ str_int (word_end_rel + 50)
      ++ ",\c" ++ primary_color ++ ")" in
  let part := "{" ++ color_tags ++ "}" ++ word in
  Ok (text_parts ++ [part])%list.

(** The animation preamble of a chunk in
    [render_segment_per_word_background]: plain fades. *)
Definition fade_preamble (self : SubtitleRenderer) : string :=
  let th := theme self in
  let preamble := "" in
  let preamble :=
    if neq (animation_entry (animation th)) "none"
    then preamble ++ "\fad(" ++ str_int (animation_duration (animation th)) ++ ",0)"
    else preamble in
  let preamble :=
    if neq (animation_exit (animation th)) "none"
    then preamble ++ "\fad(0," ++ str_int (animation_duration (animation th)) ++ ")"
    else preamble in
  if negb (is_empty preamble) then "{" ++ preamble ++ "}" else preamble.

Definition per_word_chunk (self : SubtitleRenderer) (lines : list string)
    (chunk : list word_timing) : result (list string) :=
  match chunk with
  | [] => Ok lines
  | first :: _ =>
      let chunk_start := wt_start first in
      let chunk_end := wt_end (List.last chunk first) in
      let start_ass := format_time_ass chunk_start in
      let end_ass := format_time_ass chunk_end in
      let* text_parts := for_each (per_word_word self chunk_start) chunk [] in
      let preamble := fade_preamble self in
      let text := preamble ++ join " " text_parts in
      let line := dialogue start_ass end_ass text in
      Ok (lines ++ [line])%list
  end.

Definition render_segment_per_word_background (self : SubtitleRenderer)
    (seg : segment) : result string :=
  let word_timings := calculate_word_timings seg in
  match word_timings with
  | [] => Ok (render_segment_simple self seg)
  | _ =>
      let chunks :=
        chunk_words word_timings
          (layout_max_words_per_line (layout (theme self))) in
      let* lines := for_each (per_word_chunk self) chunks [] in
      Ok (join "" lines)
  end.

(** The strategy [render_segments] picks for a segment. *)
Definition render_segment (self : SubtitleRenderer) (seg : segment)
    : result string :=
  if String.eqb (background_style (background (theme self))) "per_word"
  then render_segment_per_word_background self seg
  else if highlight_enabled (highlight (theme self))
  then render_segment_karaoke self seg
  else Ok (render_segment_simple self seg).

Definition render_segments (self : SubtitleRenderer) (segments : list segment)
    : result string :=
  let* ass_content := generate_ass_header self in
  for_each
    (fun ass_content seg =>
       let* block := render_segment self seg in Ok (ass_content ++ block))
    segments ass_content.

End SubtitleRenderer.

(** ** gui.py: what the editor hands to the renderer and the theme model *)

Module Gui.
Import Py Effects ThemeConfig SubtitleRenderer.

(** [SubtitleSegment] *)
Record SubtitleSegment : Type := {
  ss_index : Z;
  ss_start : Q;
  ss_end : Q;
  ss_text : string;
  ss_words : option (list word_entry);
}.

(** [s.words or []] *)
Definition words_or_empty (words : option (list word_entry))
    : list word_entry :=
  match words with
  | Some (w :: ws) => w :: ws
  | _ => []
  end.

(** The dict [PreviewRenderWorker.run] and [MainWindow._export_ass] build
    for a segment:
    [{"start": s.start, "end": s.end, "text": s.text, "words": s.words or []}] *)
Definition segment_dict (s : SubtitleSegment) : segment :=
  {| seg_start := Some (ss_start s);
     seg_end := Some (ss_end s);
     seg_text := Some (ss_text s);
     seg_words := Some (words_or_empty (ss_words s)) |}.

(** [MainWindow._export_ass]: the content [render_to_file] writes. *)
Definition export_ass (current_theme : SubtitleThemeConfig)
    (segments : list SubtitleSegment) : result string :=
  let segments_dict := map segment_dict segments in
  let renderer :=
    {| theme := current_theme; video_width := 1080; video_height := 1920 |} in
  render_segments renderer segments_dict.

(** [MainWindow._on_subtitle_updated], on the list of segments: the refresh
    of the timeline and of the preview that follows is left out. *)
Definition on_subtitle_updated (segments : list SubtitleSegment) (index : Z)
    (text : string) (start end_ : Q) : list SubtitleSegment :=
  if (0 <=? index) && (index <? Z.of_nat (length segments)) then
    match segments !! Z.to_nat index with
    | Some seg =>
        let old_text := ss_text seg in
        <[ Z.to_nat index :=
             {| ss_index := ss_index seg;
                ss_start := start;
                ss_end := end_;
                ss_text := text;
                ss_words :=
                  if negb (String.eqb text old_text) then None
                  else ss_words seg |} ]> segments
    | None => segments
    end
  else segments.

(** The dict [ThemePanel._save_theme] writes for the current theme under a
    new name: it has no "background" section and no "custom_y". *)
Definition save_theme_dict (new_name : string)
    (current_theme : SubtitleThemeConfig) : value :=
  VDict {[
    "name" := VStr new_name;
    "version" := VStr "1.0";
    "font" := VDict {[
      "family" := VStr (font_family (font current_theme));
      "size" := VInt (font_size (font current_theme));
      "weight" := VStr (font_weight (font current_theme));
      "style" := VStr (font_style (font current_theme)) ]};
    "colors" := VDict {[
      "primary" := VStr (colors_primary (colors current_theme));
      "highlight" := VStr (colors_highlight (colors current_theme));
      "background" := VStr (colors_background (colors current_theme));
      "outline" := VStr (colors_outline (colors current_theme));
      "shadow" := VStr (colors_shadow (colors current_theme)) ]};
    "highlight" := VDict {[
      "enabled" := VBool (highlight_enabled (highlight current_theme));
      "mode" := VStr (highlight_mode (highlight current_theme));
      "style" := VStr (highlight_style (highlight current_theme));
      "transition" := VStr (highlight_transition (highlight current_theme)) ]};
    "layout" := VDict {[
      "position" := VStr (layout_position (layout current_theme));
      "max_words_per_line" :=
        VInt (layout_max_words_per_line (layout current_theme));
      "alignment" := VStr (layout_alignment (layout current_theme));
      "margin_x" := VInt (layout_margin_x (layout current_theme));
      "margin_y" := VInt (layout_margin_y (layout current_theme)) ]};
    "effects" := VDict {[
      "outline" := VDict {[
        "enabled" :=
          VBool (outline_enabled (effects_outline (effects current_theme)));
        "width" :=
          VInt (outline_width (effects_outline (effects current_theme))) ]};
      "shadow" := VDict {[
        "enabled" :=
          VBool (shadow_enabled (effects_shadow (effects current_theme)));
        "offset_x" :=
          VInt (shadow_offset_x (effects_shadow (effects current_theme)));
        "offset_y" :=
          VInt (shadow_offset_y (effects_shadow (effects current_theme)));
        "blur" :=
          VInt (shadow_blur (effects_shadow (effects current_theme))) ]} ]};
    "animation" := VDict {[
      "entry" := VStr (animation_entry (animation current_theme));
      "exit" := VStr (animation_exit (animation current_theme));
      "duration" := VInt (animation_duration (animation current_theme));
      "word_stagger" :=
        VInt (animation_word_stagger (animation current_theme)) ]}
  ]}.









(** Concrete segments of the editor the statements are tried on: one with
    the word entries of a transcription, one without. *)
Definition timed_segment : SubtitleSegment :=
  {| ss_index := 0; ss_start := 1; ss_end := 2; ss_text := "hi there";
     ss_words := Some [
       {| w_word := Some "hi"; w_start := Some 1%Q; w_end := Some (3 # 2)%Q |};
       {| w_word := Some " there"; w_start := Some (3 # 2)%Q;
          w_end := Some 2%Q |} ] |}.

Definition untimed_segment : SubtitleSegment :=
  {| ss_index := 0; ss_start := 1; ss_end := 2; ss_text := "hi there";
     ss_words := None |}.

End Gui.

(** ** Vocabulary of the specification

  Definitions the statements below are written with. They follow the
  wording of the specification and do not call the embedded functions. *)

Module Spec.
Import Py Effects ThemeConfig SubtitleRenderer.

Fixpoint all_chars (p : ascii -> bool) (s : string) : bool :=
  match s with
  | EmptyString => true
  | String c r => p c && all_chars p r
  end.


Definition is_upper_hex (c : ascii) : bool :=
  let n := nat_of_ascii c in
  ((48 <=? n) && (n <=? 57) || (65 <=? n) && (n <=? 70))%nat.



(** A byte as exactly two uppercase hexadecimal digits, and a number below
    100 as exactly two decimal digits. *)
Definition two_hex (v : Z) : string :=
  String (digit_char (v / 16)) (String (digit_char (v mod 16)) EmptyString).


(** The byte written by the two hexadecimal digits at positions [i] and
    [i + 1] of [h]. *)
Definition pair_value (c0 c1 : ascii) : Z :=
  16 * default 0 (hex_val c0) + default 0 (hex_val c1).

Definition hex_byte (h : string) (i : nat) : Z :=
  match get i h, get (S i) h with
  | Some c0, Some c1 => pair_value c0 c1
  | _, _ => 0
  end.

Definition strip_hashes (s : string) : string := lstrip_by (Ascii.eqb "#") s.



(** Every character, and the numbers below a bound: finite domains over
    which a decidable property is checked by evaluation. *)
Definition all_ascii : list ascii := map ascii_of_nat (seq 0 256).

Definition below (n : nat) : list Z := map Z.of_nat (seq 0 n).

Definition result_is (r : result Z) (v : Z) : bool :=
  match r with
  | Ok n => n =? v
  | Raise _ => false
  end.

(** A colour string of the right length: 6 or 8 characters once the
    leading '#' is removed. *)
Definition right_length (s : string) : bool :=
  let n := String.length (strip_hashes s) in ((n =? 6) || (n =? 8))%nat.








(** The base of each position and the offset of each alignment. *)
Definition position_bases : list (string * Z) :=
  [("bottom", 1); ("center", 4); ("top", 7); ("custom", 1)].

Definition alignment_offsets : list (string * Z) :=
  [("left", 0); ("center", 1); ("right", 2)].

(** The recognised entry and exit effect names. *)
Definition recognised_effect (n : string) : bool :=
  String.eqb n "none" || String.eqb n "fade" || String.eqb n "pop"
  || String.eqb n "slide_up" || String.eqb n "slide_down"
  || String.eqb n "bounce".

(** Greedy chunking: the first [n] words, then the chunks of the rest. *)
Fixpoint greedy_chunks {A} (fuel n : nat) (words : list A) : list (list A) :=
  match fuel with
  | O => []
  | S fuel' =>
      match words with
      | [] => []
      | _ => take n words :: greedy_chunks fuel' n (drop n words)
      end
  end.

(** Time of a word relative to the start of its chunk, in milliseconds. *)
Definition relative_ms (chunk_start t : Q) : Z :=
  int_of ((t - chunk_start) * 1000)%Q.

(** The inline markup of a word: primary colour, a transition to the
    highlight colour over the window [from_ms, from_ms + window] and back
    to primary over [to_ms, to_ms + window]. *)
Definition word_markup (primary highlight : string) (window from_ms to_ms : Z)
    (w : string) : string :=
  "{\c" ++ primary
    ++ "\t(" ++ str_int from_ms ++ "," ++ str_int (from_ms + window)
    ++ ",\c" ++ highlight ++ ")"
    ++ "\t(" ++ str_int to_ms ++ "," ++ str_int (to_ms + window)
    ++ ",\c" ++ primary ++ ")}" ++ w.

Definition chunk_start_of (chunk : list word_timing) : Q :=
  match chunk with
  | [] => 0%Q
  | first :: _ => wt_start first
  end.

Definition chunk_end_of (chunk : list word_timing) : Q :=
  match chunk with
  | [] => 0%Q
  | first :: _ => wt_end (List.last chunk first)
  end.

(** The text of a chunk's event after its preamble: the words with their
    markup, separated by single spaces. *)
Definition marked_words (primary highlight : string) (window : Z)
    (chunk : list word_timing) : string :=
  join " "
    (map (fun w =>
            word_markup primary highlight window
              (relative_ms (chunk_start_of chunk) (wt_start w))
              (relative_ms (chunk_start_of chunk) (wt_end w))
              (wt_word w))
         chunk).


(** The share of the segment's duration a word gets: its length over the
    number of characters of all words. *)
Definition proportional_duration (total_chars : Z) (segment_duration : Q)
    (w : string) : Q :=
  ((inject_Z (Z.of_nat (String.length w)) / inject_Z total_chars)
     * segment_duration)%Q.

(** The words in order, each starting where the one before it ended. *)
Fixpoint timed_from (duration : string -> Q) (current_time : Q)
    (words : list string) : list word_timing :=
  match words with
  | [] => []
  | w :: rest =>
      {| wt_word := w; wt_start := current_time;
         wt_end := (current_time + duration w)%Q |}
        :: timed_from duration (current_time + duration w)%Q rest
  end.


(** The segment of the specification's example, and the same segment as the
    editor passes it: with a 'words' key that holds no entry. *)
Definition ab_abcd : segment :=
  {| seg_start := Some 0%Q; seg_end := Some 10%Q; seg_text := Some "ab abcd";
     seg_words := None |}.

Definition ab_abcd_no_entries : segment :=
  {| seg_start := Some 0%Q; seg_end := Some 10%Q; seg_text := Some "ab abcd";
     seg_words := Some [] |}.

(** Concrete inputs the statements are tried on. Their times are binary
    fractions, on which binary64 arithmetic is exact as well. *)
Definition default_renderer : SubtitleRenderer :=
  {| theme := default_theme; video_width := 1080; video_height := 1920 |}.

Definition hi_there : segment :=
  {| seg_start := Some 1%Q; seg_end := Some 2%Q; seg_text := Some "hi there";
     seg_words := Some [
       {| w_word := Some "hi"; w_start := Some 1%Q; w_end := Some (3 # 2)%Q |};
       {| w_word := Some " there"; w_start := Some (3 # 2)%Q;
          w_end := Some 2%Q |} ] |}.

Definition blank_words : segment :=
  {| seg_start := Some 1%Q; seg_end := Some 2%Q; seg_text := Some "hi there";
     seg_words := Some [
       {| w_word := Some "  "; w_start := Some 1%Q; w_end := Some 2%Q |};
       {| w_word := None; w_start := None; w_end := None |} ] |}.

Definition blank_text : segment :=
  {| seg_start := Some 1%Q; seg_end := Some 2%Q; seg_text := Some "   ";
     seg_words := None |}.

(** A hexadecimal digit in upper case, and a text of them. *)
Definition upper_hex_char (c : ascii) : ascii :=
  let n := nat_of_ascii c in
  if ((97 <=? n) && (n <=? 102))%nat then ascii_of_nat (n - 32) else c.

Fixpoint upper_hex (s : string) : string :=
  match s with
  | EmptyString => EmptyString
  | String c r => String (upper_hex_char c) (upper_hex r)
  end.

(** The highlight styles with an entry of their own. *)
Definition recognised_style (n : string) : bool :=
  String.eqb n "color" || String.eqb n "background" || String.eqb n "scale"
  || String.eqb n "underline" || String.eqb n "glow".

(** The keys [from_dict] reads at the top of a theme document, and those of
    them that hold a section. *)
Definition section_keys : list string :=
  ["font"; "colors"; "highlight"; "layout"; "background"; "effects";
   "animation"].

Definition theme_keys : list string := "name" :: "version" :: section_keys.

Definition is_mapping (v : value) : bool :=
  match v with
  | VDict _ => true
  | _ => false
  end.

(** What is left of a theme once [ThemePanel._save_theme] has written it
    under a new name and it is read back. *)
Definition saved_theme (new_name : string) (th : SubtitleThemeConfig)
    : SubtitleThemeConfig :=
  {| name := new_name; version := "1.0";
     font := font th; colors := colors th; highlight := highlight th;
     layout :=
       {| layout_position := layout_position (layout th);
          layout_custom_y := None;
          layout_max_words_per_line := layout_max_words_per_line (layout th);
          layout_alignment := layout_alignment (layout th);
          layout_margin_x := layout_margin_x (layout th);
          layout_margin_y := layout_margin_y (layout th) |};
     background := default_background;
     effects := effects th; animation := animation th |}.

(** An effect name that adds nothing in the plain and karaoke strategies:
    "none", or a name outside the catalogue. *)
Definition quiet_effect (n : string) : bool :=
  String.eqb n "none" || negb (recognised_effect n).



(** A theme with the settings no renderer method reads put back to their
    defaults: the version, the shadow colour, the highlight mode, style and
    transition, the padding, radius and opacity of the background, the
    vertical offset and blur of the shadow, the stagger of the words. *)
Definition rendered_settings (th : SubtitleThemeConfig) : SubtitleThemeConfig :=
  {| name := name th;
     version := version default_theme;
     font := font th;
     colors :=
       {| colors_primary := colors_primary (colors th);
          colors_highlight := colors_highlight (colors th);
          colors_background := colors_background (colors th);
          colors_outline := colors_outline (colors th);
          colors_shadow := colors_shadow default_colors |};
     highlight :=
       {| highlight_enabled := highlight_enabled (highlight th);
          highlight_mode := highlight_mode default_highlight;
          highlight_style := highlight_style default_highlight;
          highlight_transition := highlight_transition default_highlight |};
     layout := layout th;
     background :=
       {| background_enabled := background_enabled (background th);
          background_style := background_style (background th);
          background_padding := background_padding default_background;
          background_border_radius :=
            background_border_radius default_background;
          background_opacity := background_opacity default_background |};
     effects :=
       {| effects_outline := effects_outline (effects th);
          effects_shadow :=
            {| shadow_enabled := shadow_enabled (effects_shadow (effects th));
               shadow_offset_x :=
                 shadow_offset_x (effects_shadow (effects th));
               shadow_offset_y :=
                 shadow_offset_y (effects_shadow default_effects);
               shadow_blur := shadow_blur (effects_shadow default_effects) |} |};
     animation :=
       {| animation_entry := animation_entry (animation th);
          animation_exit := animation_exit (animation th);
          animation_duration := animation_duration (animation th);
          animation_word_stagger :=
            animation_word_stagger default_animation |} |}.

(** A theme moved to the position "bottom", everything else kept. *)
Definition at_bottom (th : SubtitleThemeConfig) : SubtitleThemeConfig :=
  {| name := name th; version := version th; font := font th;
     colors := colors th; highlight := highlight th;
     layout :=
       {| layout_position := "bottom";
          layout_custom_y := layout_custom_y (layout th);
          layout_max_words_per_line := layout_max_words_per_line (layout th);
          layout_alignment := layout_alignment (layout th);
          layout_margin_x := layout_margin_x (layout th);
          layout_margin_y := layout_margin_y (layout th) |};
     background := background th; effects := effects th;
     animation := animation th |}.

(** A theme at the position "custom" with a vertical place of its own, for
    the statements about positions. *)
Definition custom_theme : SubtitleThemeConfig :=
  {| name := "custom"; version := "1.0"; font := default_font;
     colors := default_colors; highlight := default_highlight;
     layout :=
       {| layout_position := "custom";
          layout_custom_y := Some 25%Q;
          layout_max_words_per_line :=
            layout_max_words_per_line default_layout;
          layout_alignment := layout_alignment default_layout;
          layout_margin_x := layout_margin_x default_layout;
          layout_margin_y := layout_margin_y default_layout |};
     background := default_background; effects := default_effects;
     animation := default_animation |}.

End Spec.

(** ** Facts about strings *)

Module StringFacts.
Import Py Spec.

Lemma append_nil_r (s : string) : s ++ "" = s.
Proof. induction s as [|c s IH]; simpl; [reflexivity | now rewrite IH]. Qed.

Lemma append_assoc (a b c : string) : (a ++ b) ++ c = a ++ (b ++ c).
Proof. induction a as [|x a IH]; simpl; [reflexivity | now rewrite IH]. Qed.

Lemma length_append (a b : string) :
  String.length (a ++ b) = (String.length a + String.length b)%nat.
Proof. induction a as [|x a IH]; simpl; [reflexivity | now rewrite IH]. Qed.

Lemma all_chars_append p (a b : string) :
  all_chars p (a ++ b) = all_chars p a && all_chars p b.
Proof.
  induction a as [|x a IH]; simpl; [reflexivity |].
  now rewrite IH, andb_assoc.
Qed.


Lemma lstrip_by_id p (s : string) :
  all_chars (fun c => negb (p c)) s = true -> lstrip_by p s = s.
Proof.
  destruct s as [|c s]; simpl; [reflexivity |].
  intros [Hc _]%andb_true_iff. apply negb_true_iff in Hc. now rewrite Hc.
Qed.

Lemma rstrip_by_id p (s : string) :
  all_chars (fun c => negb (p c)) s = true -> rstrip_by p s = s.
Proof.
  induction s as [|c s IH]; simpl; [reflexivity |].
  intros [Hc Hs]%andb_true_iff. apply negb_true_iff in Hc.
  rewrite (IH Hs), Hc, andb_false_r. reflexivity.
Qed.

Lemma lstrip_by_all p (s : string) :
  all_chars p s = true -> lstrip_by p s = "".
Proof.
  induction s as [|c s IH]; simpl; [reflexivity |].
  intros [Hc Hs]%andb_true_iff. rewrite Hc. now apply IH.
Qed.

Lemma strip_all_space (s : string) :
  all_chars is_space s = true -> strip s = "".
Proof. intros H. unfold strip. now rewrite lstrip_by_all. Qed.

End StringFacts.

(** ** Facts about numerals *)

Module DigitFacts.
Import Py Spec StringFacts.

Lemma all_ascii_complete (c : ascii) : In c all_ascii.
Proof.
  unfold all_ascii. apply in_map_iff. exists (nat_of_ascii c). split.
  - apply ascii_nat_embedding.
  - apply in_seq. pose proof (nat_ascii_bounded c). lia.
Qed.

Lemma forall_ascii (P : ascii -> bool) :
  forallb P all_ascii = true -> forall c, P c = true.
Proof.
  intros H c. rewrite forallb_forall in H. apply H, all_ascii_complete.
Qed.

Lemma forall_below (P : Z -> bool) (n : nat) :
  forallb P (below n) = true -> forall d, 0 <= d < Z.of_nat n -> P d = true.
Proof.
  intros H d Hd. rewrite forallb_forall in H. apply H.
  unfold below. apply in_map_iff. exists (Z.to_nat d). split; [lia |].
  apply in_seq. lia.
Qed.




Lemma digit_char_upper_hex (d : Z) :
  0 <= d < 16 -> is_upper_hex (digit_char d) = true.
Proof. apply (forall_below (fun d => is_upper_hex (digit_char d)) 16). reflexivity. Qed.










Lemma format_02X_two_hex (v : Z) :
  0 <= v < 256 -> format_02X v = two_hex v.
Proof.
  intros H. apply String.eqb_eq. revert v H.
  apply (forall_below (fun v => String.eqb (format_02X v) (two_hex v)) 256).
  vm_compute. reflexivity.
Qed.


Lemma two_hex_shape (v : Z) :
  0 <= v < 256 ->
  String.length (two_hex v) = 2%nat
  /\ all_chars is_upper_hex (two_hex v) = true.
Proof.
  intros H. split; [reflexivity |].
  assert (0 <= v / 16 < 16).
  { split; [apply Z.div_pos; lia | apply Z.div_lt_upper_bound; lia]. }
  assert (0 <= v mod 16 < 16) by (apply Z.mod_pos_bound; lia).
  unfold two_hex. simpl. rewrite !digit_char_upper_hex by lia. reflexivity.
Qed.

End DigitFacts.

(** ** The colour codec: [hex_to_ass_color] *)

Module ColorCodec.
Import Py Effects Spec StringFacts DigitFacts.

Lemma result_is_ok (r : result Z) (v : Z) : result_is r v = true -> r = Ok v.
Proof.
  destruct r as [n | e]; simpl; [| discriminate].
  intros H%Z.eqb_eq. now subst.
Qed.

(** [int(s, 16)] on two hexadecimal digits is the byte they write: no
    sign, prefix, underscore or space can occur among them. *)
Lemma int_base16_pair (c0 c1 : ascii) :
  is_hex_digit c0 = true -> is_hex_digit c1 = true ->
  int_base16 (String c0 (String c1 "")) = Ok (pair_value c0 c1)
  /\ 0 <= pair_value c0 c1 < 256.
Proof.
  intros H0 H1.
  pose proof (forall_ascii
    (fun c0 =>
       if is_hex_digit c0 then
         forallb (fun c1 =>
           if is_hex_digit c1 then
             result_is (int_base16 (String c0 (String c1 ""))) (pair_value c0 c1)
             && (0 <=? pair_value c0 c1) && (pair_value c0 c1 <? 256)
           else true) all_ascii
       else true)) as H.
  specialize (H ltac:(vm_compute; reflexivity) c0). cbv beta in H.
  rewrite H0, forallb_forall in H. specialize (H c1 (all_ascii_complete c1)).
  rewrite H1 in H.
  apply andb_true_iff in H as [[Hr Hlo]%andb_true_iff Hhi].
  split; [now apply result_is_ok | lia].
Qed.

Lemma hex_to_ass_color_unfold (s : string) :
  hex_to_ass_color s =
  let h := strip_hashes s in
  let* rgba :=
    if (String.length h =? 6)%nat then
      let* r := int_base16 (slice 0 2 h) in
      let* g := int_base16 (slice 2 4 h) in
      let* b := int_base16 (slice 4 6 h) in
      Ok (r, g, b, 0)
    else if (String.length h =? 8)%nat then
      let* r := int_base16 (slice 0 2 h) in
      let* g := int_base16 (slice 2 4 h) in
      let* b := int_base16 (slice 4 6 h) in
      let* alpha := int_base16 (slice 6 8 h) in
      Ok (r, g, b, 255 - alpha)
    else Raise (InvalidHexColor h) in
  let '(r, g, b, a) := rgba in
  Ok ("&H" ++ format_02X a ++ format_02X b ++ format_02X g ++ format_02X r).
Proof. reflexivity. Qed.

(** The six-digit form. *)
Lemma hex_to_ass_color_rgb (s : string) :
  String.length (strip_hashes s) = 6%nat ->
  all_chars is_hex_digit (strip_hashes s) = true ->
  hex_to_ass_color s
  = Ok ("&H" ++ "00" ++ two_hex (hex_byte (strip_hashes s) 4)
          ++ two_hex (hex_byte (strip_hashes s) 2)
          ++ two_hex (hex_byte (strip_hashes s) 0)).
Proof.
  intros Hlen Hhex. rewrite hex_to_ass_color_unfold.
  destruct (strip_hashes s) as [|c0 [|c1 [|c2 [|c3 [|c4 [|c5 [|c6 r]]]]]]];
    try discriminate Hlen.
  cbn [all_chars] in Hhex.
  repeat (apply andb_true_iff in Hhex as [? Hhex]).
  destruct (int_base16_pair c0 c1) as [E0 R0]; [assumption.. |].
  destruct (int_base16_pair c2 c3) as [E2 R2]; [assumption.. |].
  destruct (int_base16_pair c4 c5) as [E4 R4]; [assumption.. |].
  cbv zeta. cbn [String.length Nat.eqb slice substring Nat.sub].
  rewrite E0, E2, E4. cbn [bind hex_byte get].
  rewrite !format_02X_two_hex by lia. reflexivity.
Qed.

(** The eight-digit form. *)
Lemma hex_to_ass_color_rgba (s : string) :
  String.length (strip_hashes s) = 8%nat ->
  all_chars is_hex_digit (strip_hashes s) = true ->
  hex_to_ass_color s
  = Ok ("&H" ++ two_hex (255 - hex_byte (strip_hashes s) 6)
          ++ two_hex (hex_byte (strip_hashes s) 4)
          ++ two_hex (hex_byte (strip_hashes s) 2)
          ++ two_hex (hex_byte (strip_hashes s) 0)).
Proof.
  intros Hlen Hhex. rewrite hex_to_ass_color_unfold.
  destruct (strip_hashes s)
    as [|c0 [|c1 [|c2 [|c3 [|c4 [|c5 [|c6 [|c7 [|c8 r]]]]]]]]];
    try discriminate Hlen.
  cbn [all_chars] in Hhex.
  repeat (apply andb_true_iff in Hhex as [? Hhex]).
  destruct (int_base16_pair c0 c1) as [E0 R0]; [assumption.. |].
  destruct (int_base16_pair c2 c3) as [E2 R2]; [assumption.. |].
  destruct (int_base16_pair c4 c5) as [E4 R4]; [assumption.. |].
  destruct (int_base16_pair c6 c7) as [E6 R6]; [assumption.. |].
  cbv zeta. cbn [String.length Nat.eqb slice substring Nat.sub].
  rewrite E0, E2, E4, E6. cbn [bind hex_byte get].
  rewrite !format_02X_two_hex by lia. reflexivity.
Qed.

(** Any other length. *)
Lemma hex_to_ass_color_wrong_length (s : string) :
  right_length s = false ->
  hex_to_ass_color s = Raise (InvalidHexColor (strip_hashes s)).
Proof.
  unfold right_length. intros [H6 H8]%orb_false_iff.
  rewrite hex_to_ass_color_unfold. cbv zeta. now rewrite H6, H8.
Qed.

Lemma hex_byte_range (h : string) (i : nat) :
  all_chars is_hex_digit h = true -> 0 <= hex_byte h i < 256.
Proof.
  revert i. induction h as [|c0 h IH]; intros i Hhex.
  - unfold hex_byte. destruct i; simpl; lia.
  - cbn [all_chars] in Hhex. apply andb_true_iff in Hhex as [H0 Hhex].
    destruct i as [|i].
    + unfold hex_byte. cbn [get]. destruct h as [|c1 h]; [simpl; lia |].
      cbn [get all_chars] in *. apply andb_true_iff in Hhex as [H1 _].
      apply (int_base16_pair c0 c1 H0 H1).
    + specialize (IH i Hhex). unfold hex_byte in *. cbn [get]. exact IH.
Qed.



(** C1. For every colour string, with [h] the string without its leading
    '#': if [h] is six hexadecimal digits, [hex_to_ass_color] returns "&H",
    the alpha byte 00 and the blue, green and red bytes, each as exactly two
    uppercase hexadecimal digits; if [h] is eight hexadecimal digits, the
    alpha byte is 255 minus the input alpha (CC gives 33); if [h] has any
    other length the function fails with the invalid-colour error. *)
Theorem hex_to_ass_color_spec (s : string) :
  let h := strip_hashes s in
  (String.length h = 6%nat -> all_chars is_hex_digit h = true ->
     hex_to_ass_color s
     = Ok ("&H" ++ "00" ++ two_hex (hex_byte h 4) ++ two_hex (hex_byte h 2)
             ++ two_hex (hex_byte h 0)))
  /\ (String.length h = 8%nat -> all_chars is_hex_digit h = true ->
        hex_to_ass_color s
        = Ok ("&H" ++ two_hex (255 - hex_byte h 6) ++ two_hex (hex_byte h 4)
                ++ two_hex (hex_byte h 2) ++ two_hex (hex_byte h 0)))
  /\ (String.length h <> 6%nat -> String.length h <> 8%nat ->
        hex_to_ass_color s = Raise (InvalidHexColor h))
  /\ (all_chars is_hex_digit h = true ->
        forall i, 0 <= hex_byte h i < 256 /\ 0 <= 255 - hex_byte h i < 256)
  /\ (forall v, 0 <= v < 256 ->
        String.length (two_hex v) = 2%nat
        /\ all_chars is_upper_hex (two_hex v) = true)
  /\ hex_to_ass_color "#000000CC" = Ok "&H33000000"
  /\ hex_to_ass_color "#00FF88" = Ok "&H0088FF00".
Proof.
  cbv zeta. split; [apply hex_to_ass_color_rgb |].
  split; [apply hex_to_ass_color_rgba |].
  split.
  { intros H6 H8. apply hex_to_ass_color_wrong_length. unfold right_length.
    apply orb_false_iff. split; now apply Nat.eqb_neq. }
  split.
  { intros Hhex i. pose proof (hex_byte_range _ i Hhex). lia. }
  split; [apply two_hex_shape |].
  split; vm_compute; reflexivity.
Qed.

End ColorCodec.

(** ** The alignment code: [get_alignment_code] *)

Module Alignment.
Import Py Effects Spec.

Lemma pos_base_range (position : string) :
  default 1 (pos_base !! position) = 1
  \/ default 1 (pos_base !! position) = 4
  \/ default 1 (pos_base !! position) = 7.
Proof.
  unfold pos_base. rewrite !lookup_insert, lookup_singleton.
  repeat case_decide; simpl; auto.
Qed.

Lemma align_map_range (align : string) :
  0 <= default 1 (align_map !! align) <= 2.
Proof.
  unfold align_map. rewrite !lookup_insert, lookup_singleton.
  repeat case_decide; simpl; lia.
Qed.

(** C5, as the specification states it, fails: it gives 5 for bottom and
    center, where base 1 plus offset 1 is 2 (5 is the code of center and
    center). *)
Lemma alignment_bottom_center_is_2 :
  get_alignment_code "bottom" "center" = 2
  /\ get_alignment_code "bottom" "center" <> 5.
Proof. split; [vm_compute; reflexivity | vm_compute; discriminate]. Qed.

(** C5, amended. For every position in bottom, center, top, custom and every
    alignment in left, center, right the code is the base of the position
    (1, 4, 7, 1) plus the offset of the alignment (0, 1, 2); the code is
    always between 1 and 9; bottom and center give 2, top and left give 7,
    center and right give 6. *)
Theorem get_alignment_code_table :
  Forall (fun '((position, base), (align, offset)) =>
            get_alignment_code position align = base + offset)
         (list_prod position_bases alignment_offsets)
  /\ (forall position align, 1 <= get_alignment_code position align <= 9)
  /\ get_alignment_code "bottom" "center" = 2
  /\ get_alignment_code "top" "left" = 7
  /\ get_alignment_code "center" "right" = 6.
Proof.
  split; [repeat constructor |].
  split; [| repeat split; vm_compute; reflexivity].
  intros position align. unfold get_alignment_code.
  pose proof (pos_base_range position). pose proof (align_map_range align).
  lia.
Qed.

End Alignment.

(** ** The chunker: [chunk_words] *)

Module Chunker.
Import Py Effects Spec.
Local Open Scope list_scope.

Section Chunks.
Context {A : Type}.
Variable max_words : Z.
Hypothesis max_words_pos : 1 <= max_words.
Let n : nat := Z.to_nat max_words.

(* Arithmetic on lengths, without the induction hypotheses. *)
Local Ltac arith :=
  unfold n in *;
  repeat match goal with H : forall _, _ |- _ => clear H end;
  rewrite ?length_app, ?length_drop, ?length_take in *;
  simpl in *; lia.

Lemma greedy_chunks_nil (fuel : nat) : greedy_chunks fuel n (@nil A) = [].
Proof. destruct fuel; reflexivity. Qed.

Lemma greedy_chunks_step (fuel : nat) (w : A) (ws : list A) :
  greedy_chunks (S fuel) n (w :: ws)
  = take n (w :: ws) :: greedy_chunks fuel n (drop n (w :: ws)).
Proof. reflexivity. Qed.

(** Any fuel that covers the length gives the same chunks. *)
Lemma greedy_chunks_fuel (f1 : nat) :
  forall (f2 : nat) (ws : list A),
    (length ws <= f1)%nat -> (length ws <= f2)%nat ->
    greedy_chunks f1 n ws = greedy_chunks f2 n ws.
Proof.
  induction f1 as [|f1 IH]; intros f2 ws H1 H2.
  - destruct ws; [| simpl in H1; lia]. now rewrite !greedy_chunks_nil.
  - destruct ws as [|w ws]; [now rewrite !greedy_chunks_nil |].
    destruct f2 as [|f2]; [simpl in H2; lia |].
    rewrite !greedy_chunks_step. f_equal.
    apply IH; arith.
Qed.

Lemma greedy_chunks_full_prefix (c ws : list A) :
  length c = n ->
  greedy_chunks (length (c ++ ws)) n (c ++ ws)
  = c :: greedy_chunks (length ws) n ws.
Proof.
  intros Hc. destruct c as [|x c]; [arith |].
  cbn [app length]. rewrite greedy_chunks_step.
  change (x :: c ++ ws) with ((x :: c) ++ ws).
  rewrite take_app_length', drop_app_length' by congruence.
  f_equal. apply greedy_chunks_fuel; arith.
Qed.

(** The loop of [chunk_words], from any state whose current chunk is
    not full yet. *)
Lemma chunk_loop (ws : list A) :
  forall (chunks : list (list A)) (cur : list A),
    (length cur < n)%nat ->
    (let '(c, k) := fold_left (chunk_step max_words) ws (chunks, cur) in
     match k with
     | [] => c
     | _ => c ++ [k]
     end)
    = chunks ++ greedy_chunks (length (cur ++ ws)) n (cur ++ ws).
Proof.
  induction ws as [|w ws IH]; intros chunks cur Hcur.
  - cbn [fold_left]. rewrite app_nil_r.
    destruct cur as [|x cur]; [now rewrite app_nil_r |].
    cbn [length]. rewrite greedy_chunks_step.
    rewrite take_ge, drop_ge by arith.
    now rewrite greedy_chunks_nil.
  - cbn [fold_left]. unfold chunk_step at 2.
    rewrite Z.geb_leb.
    destruct (Z.leb_spec max_words (Z.of_nat (length (cur ++ [w]))))
      as [Hfull | Hroom].
    + assert (Hlen : length (cur ++ [w]) = n).
      { arith. }
      rewrite (IH (chunks ++ [cur ++ [w]]) []) by arith.
      rewrite <- app_assoc. f_equal. cbn [app].
      replace (cur ++ w :: ws) with ((cur ++ [w]) ++ ws)
        by now rewrite <- app_assoc.
      now rewrite greedy_chunks_full_prefix.
    + rewrite (IH chunks (cur ++ [w])).
      * now rewrite <- app_assoc.
      * arith.
Qed.

Lemma chunk_words_greedy_chunks (ws : list A) :
  chunk_words ws max_words = greedy_chunks (length ws) n ws.
Proof.
  unfold chunk_words.
  pose proof (chunk_loop ws [] []) as H. cbn [app length] in H.
  rewrite <- H by arith.
  destruct (fold_left (chunk_step max_words) ws ([], [])) as [c k].
  reflexivity.
Qed.

Lemma chunk_words_unfold (ws : list A) :
  ws <> [] ->
  chunk_words ws max_words
  = take n ws :: chunk_words (drop n ws) max_words.
Proof.
  intros Hne. rewrite !chunk_words_greedy_chunks.
  destruct ws as [|w ws]; [contradiction |].
  cbn [length]. rewrite greedy_chunks_step. f_equal.
  apply greedy_chunks_fuel; arith.
Qed.

Lemma greedy_chunks_concat (fuel : nat) :
  forall ws : list A,
    (length ws <= fuel)%nat -> concat (greedy_chunks fuel n ws) = ws.
Proof.
  induction fuel as [|fuel IH]; intros ws Hlen.
  - destruct ws; [reflexivity | simpl in Hlen; lia].
  - destruct ws as [|w ws]; [reflexivity |].
    rewrite greedy_chunks_step. cbn [concat].
    rewrite IH by (arith).
    apply take_drop.
Qed.

Lemma greedy_chunks_sizes (fuel : nat) :
  forall ws : list A,
    Forall (fun c => (1 <= length c <= n)%nat) (greedy_chunks fuel n ws).
Proof.
  induction fuel as [|fuel IH]; intros ws; [constructor |].
  destruct ws as [|w ws]; [constructor |].
  rewrite greedy_chunks_step. constructor; [| apply IH].
  arith.
Qed.

(** Every chunk that is followed by another one is full. *)
Lemma greedy_chunks_full (fuel : nat) :
  forall (ws : list A) (i : nat) (c : list A),
    greedy_chunks fuel n ws !! i = Some c ->
    (S i < length (greedy_chunks fuel n ws))%nat ->
    length c = n.
Proof.
  induction fuel as [|fuel IH]; intros ws i c Hc Hi; [discriminate |].
  destruct ws as [|w ws]; [discriminate |].
  rewrite greedy_chunks_step in Hc, Hi.
  destruct i as [|i].
  - injection Hc as <-. cbn [length] in Hi.
    destruct (drop n (w :: ws)) as [|x rest] eqn:E.
    + rewrite greedy_chunks_nil in Hi. simpl in Hi. lia.
    + apply (f_equal length) in E. rewrite length_drop in E.
      rewrite length_take. simpl in *. lia.
  - cbn [lookup list_lookup] in Hc. cbn [length] in Hi.
    eapply IH; [exact Hc | lia].
Qed.

End Chunks.

(** The chunks are never empty, whatever the bound. *)
Lemma chunk_loop_nonempty {A} (max_words : Z) (ws : list A) :
  forall chunks cur,
    Forall (fun c => c <> []) chunks ->
    Forall (fun c => c <> [])
      (let '(c, k) := fold_left (chunk_step max_words) ws (chunks, cur) in
       match k with
       | [] => c
       | _ => c ++ [k]
       end).
Proof.
  induction ws as [|w ws IH]; intros chunks cur Hchunks.
  - cbn [fold_left]. destruct cur; [exact Hchunks |].
    apply Forall_app. split; [exact Hchunks |]. now repeat constructor.
  - cbn [fold_left]. unfold chunk_step at 2.
    destruct (Z.of_nat (length (cur ++ [w])) >=? max_words).
    + apply IH. apply Forall_app. split; [exact Hchunks |].
      constructor; [| constructor]. now destruct cur.
    + apply IH, Hchunks.
Qed.

Lemma chunk_words_nonempty {A} (ws : list A) (max_words : Z) :
  Forall (fun c => c <> []) (chunk_words ws max_words).
Proof.
  unfold chunk_words.
  pose proof (chunk_loop_nonempty max_words ws [] [] (List.Forall_nil _)) as H.
  destruct (fold_left (chunk_step max_words) ws ([], [])) as [c k].
  exact H.
Qed.

(** C3. For every word list and every bound of at least one word,
    [chunk_words] is greedy: nothing for no words; otherwise the first
    [max_words] words (all of them if fewer remain) as one chunk, followed
    by the chunks of the remaining words. So the chunks, in order, make up
    the input, each holds between one and [max_words] words, and each but
    the last is full. Seven words in chunks of three give three, three and
    one. *)
Theorem chunk_words_greedy {A} (words : list A) (max_words : Z) :
  1 <= max_words ->
  chunk_words (@nil A) max_words = []
  /\ (words <> [] ->
      chunk_words words max_words
      = take (Z.to_nat max_words) words
          :: chunk_words (drop (Z.to_nat max_words) words) max_words)
  /\ concat (chunk_words words max_words) = words
  /\ Forall (fun c => (1 <= length c <= Z.to_nat max_words)%nat)
       (chunk_words words max_words)
  /\ (forall i c,
        chunk_words words max_words !! i = Some c ->
        (S i < length (chunk_words words max_words))%nat ->
        length c = Z.to_nat max_words)
  /\ chunk_words ["a"; "b"; "c"; "d"; "e"; "f"; "g"] 3
     = [["a"; "b"; "c"]; ["d"; "e"; "f"]; ["g"]].
Proof.
  intros Hpos. split; [reflexivity |].
  split; [now apply chunk_words_unfold |].
  rewrite chunk_words_greedy_chunks by exact Hpos.
  split; [now apply greedy_chunks_concat |].
  split; [now apply greedy_chunks_sizes |].
  split; [now apply greedy_chunks_full | reflexivity].
Qed.

Lemma chunk_words_greedy_witness :
  1 <= 3
  /\ chunk_words ["a"; "b"; "c"; "d"; "e"; "f"; "g"] 3
     = take 3 ["a"; "b"; "c"; "d"; "e"; "f"; "g"]
         :: chunk_words (drop 3 ["a"; "b"; "c"; "d"; "e"; "f"; "g"]) 3.
Proof.
  split; [lia |].
  refine (proj1 (proj2 (chunk_words_greedy
                          ["a"; "b"; "c"; "d"; "e"; "f"; "g"] 3 _)) _);
    [lia | discriminate].
Defined.

End Chunker.

(** ** The theme model: [from_dict] and [to_dict] *)

Module ThemeRoundTrip.
Import Py ThemeConfig.

(** [to_dict] emits every field, so reading its output back gives the
    theme it was built from, whatever the theme. *)
Lemma from_dict_to_dict (th : SubtitleThemeConfig) :
  from_dict (to_dict th) = Ok th.
Proof.
  destruct th as [n v [] [] [] [? [q|] ? ? ? ?] [] [[] []] []];
    reflexivity.
Qed.

(** A sparse document keeps the defaults of what it leaves out, so it is
    not what [to_dict] gives back. *)
Example sparse_document_is_filled :
  from_dict (VDict {[ "name" := VStr "mine" ]})
  = Ok {| name := "mine"; version := "1.0";
          font := default_font; colors := default_colors;
          highlight := default_highlight; layout := default_layout;
          background := default_background; effects := default_effects;
          animation := default_animation |}
  /\ from_dict VNone = Ok default_theme.
Proof. split; reflexivity. Qed.

(** C7. Reading back the document written from the all-defaults theme
    gives the all-defaults theme, field for field. *)
Theorem default_theme_round_trip :
  from_dict (to_dict default_theme) = Ok default_theme.
Proof. vm_compute. reflexivity. Qed.

End ThemeRoundTrip.

(** ** The renderer: strategies and their fallbacks *)

Module RendererFacts.
Import Py Effects ThemeConfig SubtitleRenderer Spec StringFacts ColorCodec Chunker.

(** A loop whose body appends one element per turn builds a map. *)
Lemma for_each_appends {A B} (P : A -> Prop) (f : A -> B)
    (body : list B -> A -> result (list B)) (l : list A) :
  (forall acc x, P x -> body acc x = Ok (acc ++ [f x])%list) ->
  Forall P l ->
  forall acc, for_each body l acc = Ok (acc ++ map f l)%list.
Proof.
  intros Hbody Hl. induction Hl as [|x l Hx Hl IH]; intros acc.
  - cbn [for_each map]. now rewrite app_nil_r.
  - cbn [for_each map]. rewrite (Hbody acc x Hx). cbn [bind].
    rewrite IH, <- app_assoc. reflexivity.
Qed.

Lemma Forall_true {A} (l : list A) : Forall (fun _ => True) l.
Proof. induction l; constructor; auto. Qed.

Lemma join_empty_singleton (acc : list string) (x : string) :
  join "" (acc ++ [x])%list = join "" acc ++ x.
Proof.
  induction acc as [|a acc IH]; [reflexivity |].
  cbn [app]. destruct acc as [|b acc].
  - cbn [app join]. reflexivity.
  - change (join "" (a :: (b :: acc) ++ [x])%list)
      with (a ++ "" ++ join "" ((b :: acc) ++ [x])%list).
    rewrite IH. change (join "" (a :: b :: acc)) with (a ++ "" ++ join "" (b :: acc)).
    cbn [append]. now rewrite append_assoc.
Qed.

Section Strategies.
Variable self : SubtitleRenderer.
Variables fg hl : string.
Hypothesis primary_ok :
  hex_to_ass_color (colors_primary (colors (theme self))) = Ok fg.
Hypothesis highlight_ok :
  hex_to_ass_color (colors_highlight (colors (theme self))) = Ok hl.

Lemma karaoke_word_markup (chunk_start : Q) (parts : list string)
    (w : word_timing) :
  highlight_enabled (highlight (theme self)) = true ->
  karaoke_word self chunk_start parts w
  = Ok (parts ++ [word_markup fg hl 0
                    (relative_ms chunk_start (wt_start w))
                    (relative_ms chunk_start (wt_end w)) (wt_word w)])%list.
Proof.
  intros Hen. unfold karaoke_word. rewrite Hen, primary_ok, highlight_ok.
  cbn [bind]. unfold word_markup, relative_ms. rewrite !Z.add_0_r.
  do 3 f_equal. rewrite !append_assoc. reflexivity.
Qed.

Lemma per_word_word_markup (chunk_start : Q) (parts : list string)
    (w : word_timing) :
  per_word_word self chunk_start parts w
  = Ok (parts ++ [word_markup fg hl 50
                    (relative_ms chunk_start (wt_start w))
                    (relative_ms chunk_start (wt_end w)) (wt_word w)])%list.
Proof.
  unfold per_word_word. rewrite primary_ok, highlight_ok.
  cbn [bind]. unfold word_markup, relative_ms.
  do 3 f_equal. rewrite !append_assoc. reflexivity.
Qed.

(** The event of a chunk under the karaoke strategy and under the
    per-word-background strategy. *)
Lemma karaoke_chunk_event (lines : list string) (chunk : list word_timing) :
  highlight_enabled (highlight (theme self)) = true ->
  chunk <> [] ->
  karaoke_chunk self lines chunk
  = Ok (lines ++ [dialogue (format_time_ass (chunk_start_of chunk))
                    (format_time_ass (chunk_end_of chunk))
                    (karaoke_preamble self
                       (relative_ms (chunk_start_of chunk) (chunk_end_of chunk))
                     ++ marked_words fg hl 0 chunk)])%list.
Proof.
  intros Hen Hne. destruct chunk as [|first rest]; [contradiction |].
  unfold karaoke_chunk.
  rewrite (for_each_appends (fun _ => True) _ _ _
             (fun acc x _ => karaoke_word_markup (wt_start first) acc x Hen)
             (Forall_true _)).
  reflexivity.
Qed.

Lemma per_word_chunk_event (lines : list string) (chunk : list word_timing) :
  chunk <> [] ->
  per_word_chunk self lines chunk
  = Ok (lines ++ [dialogue (format_time_ass (chunk_start_of chunk))
                    (format_time_ass (chunk_end_of chunk))
                    (fade_preamble self
                     ++ marked_words fg hl 50 chunk)])%list.
Proof.
  intros Hne. destruct chunk as [|first rest]; [contradiction |].
  unfold per_word_chunk.
  rewrite (for_each_appends (fun _ => True) _ _ _
             (fun acc x _ => per_word_word_markup (wt_start first) acc x)
             (Forall_true _)).
  reflexivity.
Qed.

(** With its two colours valid, a strategy renders every segment. *)
Lemma render_segment_karaoke_events (seg : segment) :
  highlight_enabled (highlight (theme self)) = true ->
  calculate_word_timings seg <> [] ->
  render_segment_karaoke self seg
  = Ok (join ""
          (map (fun chunk =>
                  dialogue (format_time_ass (chunk_start_of chunk))
                    (format_time_ass (chunk_end_of chunk))
                    (karaoke_preamble self
                       (relative_ms (chunk_start_of chunk) (chunk_end_of chunk))
                     ++ marked_words fg hl 0 chunk))
               (chunk_words (calculate_word_timings seg)
                  (layout_max_words_per_line (layout (theme self)))))).
Proof.
  intros Hen Hne. unfold render_segment_karaoke.
  destruct (calculate_word_timings seg) as [|w ws] eqn:E; [contradiction |].
  rewrite (for_each_appends (fun c => c <> []) _ _ _
             (fun acc c Hc => karaoke_chunk_event acc c Hen Hc)
             (chunk_words_nonempty _ _)).
  reflexivity.
Qed.

Lemma render_segment_per_word_events (seg : segment) :
  calculate_word_timings seg <> [] ->
  render_segment_per_word_background self seg
  = Ok (join ""
          (map (fun chunk =>
                  dialogue (format_time_ass (chunk_start_of chunk))
                    (format_time_ass (chunk_end_of chunk))
                    (fade_preamble self ++ marked_words fg hl 50 chunk))
               (chunk_words (calculate_word_timings seg)
                  (layout_max_words_per_line (layout (theme self)))))).
Proof.
  intros Hne. unfold render_segment_per_word_background.
  destruct (calculate_word_timings seg) as [|w ws] eqn:E; [contradiction |].
  rewrite (for_each_appends (fun c => c <> []) _ _ _
             (fun acc c Hc => per_word_chunk_event acc c Hc)
             (chunk_words_nonempty _ _)).
  reflexivity.
Qed.

Lemma render_segment_ok (seg : segment) :
  exists block, render_segment self seg = Ok block.
Proof.
  unfold render_segment.
  assert (Hdec : calculate_word_timings seg = [] \/ calculate_word_timings seg <> []).
  { destruct (calculate_word_timings seg); [left | right]; congruence. }
  destruct (String.eqb _ "per_word").
  - destruct Hdec as [E | Hne].
    + unfold render_segment_per_word_background. rewrite E. eauto.
    + rewrite render_segment_per_word_events by exact Hne. eauto.
  - destruct (highlight_enabled (highlight (theme self))) eqn:Hen; [| eauto].
    destruct Hdec as [E | Hne].
    + unfold render_segment_karaoke. rewrite E. eauto.
    + rewrite render_segment_karaoke_events by assumption. eauto.
Qed.


End Strategies.




Lemma unrecognised_entry_effect (effect_name : string) (duration : Z) :
  recognised_effect effect_name = false ->
  get_entry_effect effect_name duration = "".
Proof.
  unfold recognised_effect. intros H.
  repeat (apply orb_false_iff in H as [H ?]).
  repeat match goal with
         | E : String.eqb _ _ = false |- _ => apply String.eqb_neq in E
         end.
  unfold get_entry_effect, entry_effects.
  rewrite !lookup_insert_ne, lookup_singleton_ne by congruence. reflexivity.
Qed.

Lemma unrecognised_exit_effect (effect_name : string)
    (duration total_duration : Z) :
  recognised_effect effect_name = false ->
  get_exit_effect effect_name duration total_duration = "".
Proof.
  unfold recognised_effect. intros H.
  repeat (apply orb_false_iff in H as [H ?]).
  repeat match goal with
         | E : String.eqb _ _ = false |- _ => apply String.eqb_neq in E
         end.
  unfold get_exit_effect, exit_effects. cbv zeta.
  rewrite !lookup_insert_ne, lookup_singleton_ne by congruence. reflexivity.
Qed.

End RendererFacts.

(** ** The renderer: what the specification claims *)

Module Rendering.
Import Py Effects ThemeConfig SubtitleRenderer Spec StringFacts ColorCodec.
Import Chunker RendererFacts.



(** The same segment under the per-word-background strategy. *)
Example per_word_background_windows :
  render_segment
    {| theme :=
         {| name := "boxes"; version := "1.0"; font := default_font;
            colors := default_colors; highlight := default_highlight;
            layout := default_layout;
            background :=
              {| background_enabled := true; background_style := "per_word";
                 background_padding := 20; background_border_radius := 15;
                 background_opacity := (8 # 10)%Q |};
            effects := default_effects; animation := default_animation |};
       video_width := 1080; video_height := 1920 |}
    hi_there
  = Ok ("Dialogue: 0,0:00:01.00,0:00:02.00,Default,,0,0,0,,"
        ++ "{\fad(200,0)\fad(0,200)}"
        ++ "{\c&H00FFFFFF\t(0,50,\c&H0088FF00)\t(500,550,\c&H00FFFFFF)}hi "
        ++ "{\c&H00FFFFFF\t(500,550,\c&H0088FF00)\t(1000,1050,\c&H00FFFFFF)}there"
        ++ nl).
Proof. vm_compute. reflexivity. Qed.

(** Segments without a single timed word. *)
Lemma blank_words_have_no_timings (seg : segment) (ws : list word_entry) :
  seg_words seg = Some ws ->
  Forall (fun w => strip (default "" (w_word w)) = "") ws ->
  calculate_word_timings seg = [].
Proof.
  intros Hws Hblank. unfold calculate_word_timings. rewrite Hws. clear Hws.
  induction Hblank as [|w ws Hw _ IH]; [reflexivity |].
  cbn [List.filter]. rewrite Hw. exact IH.
Qed.

Lemma split_from_blank (s : string) :
  all_chars is_space s = true -> split_from s "" = [].
Proof.
  induction s as [|c s IH]; [reflexivity |].
  cbn [all_chars split_from]. intros [Hc Hs]%andb_true_iff.
  rewrite Hc. cbn [is_empty]. now apply IH.
Qed.

Lemma blank_text_has_no_timings (seg : segment) :
  seg_words seg = None ->
  all_chars is_space (default "" (seg_text seg)) = true ->
  calculate_word_timings seg = [].
Proof.
  intros Hws Hblank. unfold calculate_word_timings. rewrite Hws.
  now rewrite strip_all_space.
Qed.

(** C10. For every segment whose word timings come out empty, the karaoke and
    the per-word-background strategies both return exactly what the plain
    strategy returns for it, which is one dialogue event over the segment's
    own start and end. *)
Theorem empty_timings_render_plain (self : SubtitleRenderer) (seg : segment) :
  calculate_word_timings seg = [] ->
  render_segment_karaoke self seg = Ok (render_segment_simple self seg)
  /\ render_segment_per_word_background self seg
     = Ok (render_segment_simple self seg)
  /\ render_segment self seg = Ok (render_segment_simple self seg)
  /\ exists text,
       render_segment_simple self seg
       = dialogue (format_time_ass (default 0%Q (seg_start seg)))
           (format_time_ass (default 0%Q (seg_end seg))) text.
Proof.
  intros E.
  assert (Hk : render_segment_karaoke self seg
               = Ok (render_segment_simple self seg)).
  { unfold render_segment_karaoke. now rewrite E. }
  assert (Hp : render_segment_per_word_background self seg
               = Ok (render_segment_simple self seg)).
  { unfold render_segment_per_word_background. now rewrite E. }
  repeat split; [exact Hk | exact Hp | |].
  - unfold render_segment.
    destruct (String.eqb _ "per_word"); [exact Hp |].
    destruct (highlight_enabled _); [exact Hk | reflexivity].
  - unfold render_segment_simple. eexists. reflexivity.
Qed.

Lemma empty_timings_render_plain_witness :
  calculate_word_timings blank_words = []
  /\ render_segment_karaoke default_renderer blank_words
     = Ok ("Dialogue: 0,0:00:01.00,0:00:02.00,Default,,0,0,0,,"
           ++ "{\fscx50\fscy50\t(0,200,\fscx100\fscy100)\fad(0,200)}hi there"
           ++ nl).
Proof.
  split; [reflexivity |].
  refine (eq_trans
            (proj1 (empty_timings_render_plain default_renderer blank_words _))
            _).
  - reflexivity.
  - vm_compute. reflexivity.
Defined.

Example blank_segments_have_no_timings :
  calculate_word_timings blank_words = []
  /\ calculate_word_timings blank_text = []
  /\ render_segment_per_word_background default_renderer blank_text
     = Ok ("Dialogue: 0,0:00:01.00,0:00:02.00,Default,,0,0,0,,"
           ++ "{\fscx50\fscy50\t(0,200,\fscx100\fscy100)\fad(0,200)}" ++ nl).
Proof.
  split; [| split].
  - eapply blank_words_have_no_timings; [reflexivity |]. repeat constructor.
  - now apply blank_text_has_no_timings.
  - vm_compute. reflexivity.
Qed.


End Rendering.

(** ** The document header: [generate_ass_header] *)

Module Header.
Import Py Effects ThemeConfig SubtitleRenderer Spec StringFacts DigitFacts.
Import ColorCodec.









End Header.

(** ** The time format: [format_time_ass] *)

Module TimeFormat.
Import Py Effects Spec StringFacts DigitFacts.







(** Times below a second, at an exact second and past ten hours. *)
Example format_time_ass_examples :
  format_time_ass 0 = "0:00:00.00"
  /\ format_time_ass (1 # 128) = "0:00:00.00"
  /\ format_time_ass (3599 + (127 # 128)) = "0:59:59.99"
  /\ format_time_ass 36000 = "10:00:00.00"
  /\ format_time_ass 360000 = "100:00:00.00".
Proof. repeat split; vm_compute; reflexivity. Qed.

End TimeFormat.

(** ** The word-timing estimator: [calculate_word_timings] *)

Module WordTimings.
Import Py Effects Spec StringFacts.

(** With a 'words' key, the entries are taken as they are: the blank ones
    dropped, the words trimmed, the timestamps untouched. *)
Lemma word_entries_pass_through (seg : segment) (ws : list word_entry) :
  seg_words seg = Some ws ->
  calculate_word_timings seg
  = map (fun w => {| wt_word := strip (default "" (w_word w));
                     wt_start := default 0%Q (w_start w);
                     wt_end := default 0%Q (w_end w) |})
        (List.filter
           (fun w => negb (is_empty (strip (default "" (w_word w))))) ws).
Proof. intros H. unfold calculate_word_timings. now rewrite H. Qed.

Lemma sum_len_from (ws : list string) (a : Z) :
  fold_left (fun acc w => acc + Z.of_nat (String.length w)) ws a
  = a + sum_len ws.
Proof.
  unfold sum_len. revert a. induction ws as [|w ws IH]; intros a.
  - cbn [fold_left]. lia.
  - cbn [fold_left]. rewrite IH, (IH (0 + _)). lia.
Qed.

Lemma sum_len_cons (w : string) (ws : list string) :
  sum_len (w :: ws) = Z.of_nat (String.length w) + sum_len ws.
Proof. unfold sum_len at 1. cbn [fold_left]. now rewrite sum_len_from. Qed.

Lemma sum_len_nonneg (ws : list string) : 0 <= sum_len ws.
Proof.
  induction ws as [|w ws IH]; [reflexivity |]. rewrite sum_len_cons. lia.
Qed.

(** [split] never returns an empty word. *)
Lemma split_from_nonempty (s : string) :
  forall cur, Forall (fun w => w <> "") (split_from s cur).
Proof.
  induction s as [|c s IH]; intros cur; cbn [split_from].
  - destruct cur; [constructor | repeat constructor; discriminate].
  - destruct (is_space c); [| apply IH].
    destruct cur; cbn [is_empty]; [apply IH |].
    constructor; [discriminate | apply IH].
Qed.

Lemma sum_len_positive (ws : list string) :
  Forall (fun w => w <> "") ws -> ws <> [] -> 0 < sum_len ws.
Proof.
  intros Hall Hne. destruct Hall as [|w ws Hw _]; [contradiction |].
  rewrite sum_len_cons. pose proof (sum_len_nonneg ws).
  destruct w; [contradiction | simpl; lia].
Qed.

(** The estimation loop, for a positive character count. *)
Lemma estimate_loop (total_chars : Z) (segment_duration : Q) (n_words : Z)
    (ws : list string) :
  0 < total_chars ->
  forall acc current_time,
    fst (fold_left (estimate_step total_chars segment_duration n_words) ws
           (acc, current_time))
    = (acc ++ timed_from (proportional_duration total_chars segment_duration)
                current_time ws)%list.
Proof.
  intros Hpos. induction ws as [|w ws IH]; intros acc t.
  - cbn [fold_left fst timed_from]. now rewrite app_nil_r.
  - cbn [fold_left timed_from]. unfold estimate_step at 2.
    destruct (Z.gtb_spec total_chars 0) as [_ | Hle]; [| lia].
    rewrite IH, <- app_assoc. reflexivity.
Qed.

(** Without a 'words' key, the words of the text share the segment's
    duration in proportion to their lengths. *)
Lemma estimated_word_timings (seg : segment) :
  seg_words seg = None ->
  let words := split (strip (default "" (seg_text seg))) in
  let segment_start := default 0%Q (seg_start seg) in
  let segment_end := default 0%Q (seg_end seg) in
  calculate_word_timings seg
  = timed_from
      (proportional_duration (sum_len words) (segment_end - segment_start))
      segment_start words.
Proof.
  intros Hws words segment_start segment_end.
  unfold calculate_word_timings. rewrite Hws. fold words.
  destruct words as [|w ws] eqn:E; [reflexivity |].
  rewrite estimate_loop; [reflexivity |].
  apply sum_len_positive; [| discriminate].
  rewrite <- E. apply split_from_nonempty.
Qed.

Lemma timed_from_words duration (t : Q) (ws : list string) :
  map wt_word (timed_from duration t ws) = ws.
Proof.
  revert t. induction ws as [|w ws IH]; intros t; [reflexivity |].
  cbn [timed_from map]. now rewrite IH.
Qed.





(** C2 on the code. With no 'words' key the segment from 0 to 10 with the
    text "ab abcd" gets "ab" from 0 to 10*2/6 and "abcd" from there to 10, as
    the specification says. With a 'words' key that holds no entry, which by
    the specification is a segment to estimate from its text, the code
    returns no timing at all. *)
Theorem empty_words_key_stops_estimation :
  calculate_word_timings ab_abcd
  = [ {| wt_word := "ab"; wt_start := 0; wt_end := 0 + (2 / 6) * (10 - 0) |};
      {| wt_word := "abcd"; wt_start := 0 + (2 / 6) * (10 - 0);
         wt_end := 0 + (2 / 6) * (10 - 0) + (4 / 6) * (10 - 0) |} ]
  /\ (0 + (2 / 6) * (10 - 0) + (4 / 6) * (10 - 0) == 10)%Q
  /\ calculate_word_timings ab_abcd_no_entries = [].
Proof. split; [reflexivity | split; reflexivity]. Qed.

End WordTimings.

(** ** Colour channels: [hex_to_rgb] and [rgb_to_hex] *)

Module ColorChannels.
Import Py Effects Spec StringFacts DigitFacts ColorCodec.

Lemma digit_char_hex (d : Z) :
  0 <= d < 16 ->
  hex_val (digit_char d) = Some d
  /\ Ascii.eqb "#" (digit_char d) = false.
Proof.
  intros H.
  pose proof (forall_below
    (fun d => match hex_val (digit_char d) with
              | Some v => (v =? d) && negb (Ascii.eqb "#" (digit_char d))
              | None => false
              end) 16 eq_refl d H) as Hd.
  cbv beta in Hd. destruct (hex_val (digit_char d)) as [v |]; [| discriminate].
  apply andb_true_iff in Hd as [Hv Hh].
  apply Z.eqb_eq in Hv. apply negb_true_iff in Hh. now subst.
Qed.

(** The byte the two digits of [two_hex v] write is [v]. *)
Lemma int_base16_two_hex (v : Z) :
  0 <= v < 256 -> int_base16 (two_hex v) = Ok v.
Proof.
  intros H. unfold two_hex.
  assert (Hq : 0 <= v / 16 < 16) by zlia.
  assert (Hr : 0 <= v mod 16 < 16) by zlia.
  destruct (digit_char_hex _ Hq) as [Eq _].
  destruct (digit_char_hex _ Hr) as [Er _].
  destruct (int_base16_pair (digit_char (v / 16)) (digit_char (v mod 16)))
    as [E _].
  - unfold is_hex_digit. now rewrite Eq.
  - unfold is_hex_digit. now rewrite Er.
  - rewrite E. unfold pair_value. rewrite Eq, Er.
    cbv [default from_option id]. f_equal. zlia.
Qed.

(** Two hexadecimal digits, read and written back, come out in upper case. *)
Lemma two_hex_pair_value (c0 c1 : ascii) :
  is_hex_digit c0 = true -> is_hex_digit c1 = true ->
  two_hex (pair_value c0 c1)
  = String (upper_hex_char c0) (String (upper_hex_char c1) "").
Proof.
  intros H0 H1.
  pose proof (forall_ascii
    (fun c0 =>
       if is_hex_digit c0 then
         forallb (fun c1 =>
           if is_hex_digit c1 then
             String.eqb (two_hex (pair_value c0 c1))
               (String (upper_hex_char c0) (String (upper_hex_char c1) ""))
           else true) all_ascii
       else true)) as H.
  specialize (H ltac:(vm_compute; reflexivity) c0). cbv beta in H.
  rewrite H0, forallb_forall in H. specialize (H c1 (all_ascii_complete c1)).
  rewrite H1 in H. now apply String.eqb_eq.
Qed.

Lemma lstrip_by_head (p : ascii -> bool) (s : string) (c : ascii) (r : string) :
  lstrip_by p s = String c r -> p c = false.
Proof.
  induction s as [|x s IH]; [discriminate |].
  cbn [lstrip_by]. destruct (p x) eqn:E; [exact IH |].
  intros H. injection H as <- _. exact E.
Qed.

Lemma substring_0_0 (s : string) : substring 0 0 s = "".
Proof. now destruct s. Qed.

(** X1. Writing three bytes as a colour and reading the colour back gives
    the three bytes. *)
Theorem rgb_to_hex_to_rgb (r g b : Z) :
  0 <= r < 256 -> 0 <= g < 256 -> 0 <= b < 256 ->
  hex_to_rgb (rgb_to_hex r g b) = Ok (r, g, b).
Proof.
  intros Hr Hg Hb. unfold rgb_to_hex.
  rewrite !format_02X_two_hex by assumption.
  pose proof (int_base16_two_hex r Hr) as Er.
  pose proof (int_base16_two_hex g Hg) as Eg.
  pose proof (int_base16_two_hex b Hb) as Eb.
  assert (Hq : 0 <= r / 16 < 16) by zlia.
  destruct (digit_char_hex _ Hq) as [_ Hhash].
  unfold hex_to_rgb, two_hex in *. cbn [append lstrip_by].
  change (Ascii.eqb "#" "#") with true. cbv iota. cbn [lstrip_by].
  rewrite Hhash. cbn [slice substring Nat.sub].
  rewrite Er, Eg, Eb. reflexivity.
Qed.

Lemma rgb_to_hex_to_rgb_witness :
  hex_to_rgb (rgb_to_hex 0 255 136) = Ok (0, 255, 136).
Proof. apply rgb_to_hex_to_rgb; lia. Defined.

(** X2. A colour whose first six characters after the leading '#' are
    hexadecimal digits is read, and written back it is '#' and these six
    digits in upper case: an alpha byte, or anything else that follows, is
    dropped. *)
Theorem hex_to_rgb_to_hex (s : string) :
  String.length (slice 0 6 (strip_hashes s)) = 6%nat ->
  all_chars is_hex_digit (slice 0 6 (strip_hashes s)) = true ->
  exists r g b,
    hex_to_rgb s = Ok (r, g, b)
    /\ 0 <= r < 256 /\ 0 <= g < 256 /\ 0 <= b < 256
    /\ rgb_to_hex r g b = "#" ++ upper_hex (slice 0 6 (strip_hashes s)).
Proof.
  unfold hex_to_rgb. fold (strip_hashes s).
  destruct (strip_hashes s) as [|c0 [|c1 [|c2 [|c3 [|c4 [|c5 rest]]]]]];
    try discriminate.
  intros _ Hhex. cbn [slice substring Nat.sub] in Hhex.
  rewrite substring_0_0 in Hhex. cbn [all_chars] in Hhex.
  repeat (apply andb_true_iff in Hhex as [? Hhex]).
  destruct (int_base16_pair c0 c1) as [E0 R0]; [assumption.. |].
  destruct (int_base16_pair c2 c3) as [E2 R2]; [assumption.. |].
  destruct (int_base16_pair c4 c5) as [E4 R4]; [assumption.. |].
  cbn [slice substring Nat.sub]. rewrite substring_0_0, E0, E2, E4.
  cbn [bind].
  eexists _, _, _. split; [reflexivity |].
  repeat (split; [lia |]).
  unfold rgb_to_hex. rewrite !format_02X_two_hex by lia.
  rewrite !two_hex_pair_value by assumption. reflexivity.
Qed.

Lemma hex_to_rgb_to_hex_witness :
  exists r g b,
    hex_to_rgb "#00ff88CC" = Ok (r, g, b)
    /\ 0 <= r < 256 /\ 0 <= g < 256 /\ 0 <= b < 256
    /\ rgb_to_hex r g b = "#" ++ "00FF88".
Proof. apply (hex_to_rgb_to_hex "#00ff88CC"); reflexivity. Defined.

(** X3. [hex_to_rgb] checks no length: it reads the first six characters
    after the leading '#' and nothing else, so it accepts five digits (the
    blue channel is then the single last digit), and it raises a ValueError
    whenever fewer than five characters are left. *)
Theorem hex_to_rgb_reads_six (s : string) :
  hex_to_rgb s = hex_to_rgb (slice 0 6 (strip_hashes s))
  /\ ((String.length (strip_hashes s) <= 4)%nat ->
      exists e, hex_to_rgb s = Raise e /\ is_value_error e = true)
  /\ hex_to_rgb "#FFFFF" = Ok (255, 255, 15)
  /\ hex_to_rgb "#FFF" = Raise (InvalidLiteral "").
Proof.
  split; [| split; [| split; reflexivity]].
  - unfold hex_to_rgb. fold (strip_hashes s). fold (strip_hashes (slice 0 6 (strip_hashes s))).
    assert (Hid : strip_hashes (slice 0 6 (strip_hashes s))
                  = slice 0 6 (strip_hashes s)).
    { destruct (strip_hashes s) as [|c r] eqn:E; [reflexivity |].
      apply lstrip_by_head in E. cbn [slice substring Nat.sub].
      unfold strip_hashes. cbn [lstrip_by]. now rewrite E. }
    rewrite Hid.
    destruct (strip_hashes s) as [|c0 [|c1 [|c2 [|c3 [|c4 [|c5 rest]]]]]];
      try reflexivity.
    cbn [slice substring Nat.sub]. now rewrite substring_0_0.
  - intros Hlen. unfold hex_to_rgb. fold (strip_hashes s).
    assert (Hlast : slice 4 6 (strip_hashes s) = "").
    { destruct (strip_hashes s) as [|c0 [|c1 [|c2 [|c3 [|c4 rest]]]]];
        try reflexivity. simpl in Hlen. lia. }
    rewrite Hlast. unfold int_base16.
    destruct (scan_signed (strip (slice 0 2 (strip_hashes s))));
      [| eexists; split; reflexivity].
    destruct (scan_signed (strip (slice 2 4 (strip_hashes s))));
      eexists; split; reflexivity.
Qed.

End ColorChannels.

(** ** The time format below zero *)

Module TimeFormatSigned.
Import Py Effects Spec StringFacts DigitFacts TimeFormat.



End TimeFormatSigned.

(** ** Word timings: what every result satisfies *)

Module WordTimingFacts.
Import Py Effects Spec StringFacts ColorChannels WordTimings.

Lemma rstrip_by_idempotent (p : ascii -> bool) (s : string) :
  rstrip_by p (rstrip_by p s) = rstrip_by p s.
Proof.
  induction s as [|c s IH]; [reflexivity |].
  cbn [rstrip_by]. destruct (is_empty (rstrip_by p s) && p c) eqn:E;
    [reflexivity |].
  cbn [rstrip_by]. now rewrite IH, E.
Qed.

Lemma strip_idempotent (s : string) : strip (strip s) = strip s.
Proof.
  unfold strip. destruct (lstrip_by is_space s) as [|c r] eqn:E;
    [reflexivity |].
  apply lstrip_by_head in E.
  assert (Hz : rstrip_by is_space (String c r)
               = String c (rstrip_by is_space r)).
  { cbn [rstrip_by]. now rewrite E, andb_false_r. }
  rewrite Hz. cbn [lstrip_by]. rewrite E, <- Hz.
  apply rstrip_by_idempotent.
Qed.

Lemma split_from_no_space (s : string) :
  forall cur,
    all_chars (fun c => negb (is_space c)) cur = true ->
    Forall (fun w => all_chars (fun c => negb (is_space c)) w = true)
      (split_from s cur).
Proof.
  induction s as [|c s IH]; intros cur Hcur; cbn [split_from].
  - destruct (is_empty cur); repeat constructor. exact Hcur.
  - destruct (is_space c) eqn:Ec.
    + destruct (is_empty cur); [now apply IH |].
      constructor; [exact Hcur | now apply IH].
    + apply IH. rewrite all_chars_append, Hcur. cbn [all_chars].
      now rewrite Ec.
Qed.

Lemma no_space_strip (w : string) :
  all_chars (fun c => negb (is_space c)) w = true -> strip w = w.
Proof.
  intros H. unfold strip. now rewrite lstrip_by_id, rstrip_by_id.
Qed.

(** X5. Every word [calculate_word_timings] returns, from the entries or
    estimated from the text, is non-empty and has no white space at either
    end. *)
Theorem word_timings_words_are_trimmed (seg : segment) :
  Forall (fun wt => wt_word wt <> "" /\ strip (wt_word wt) = wt_word wt)
    (calculate_word_timings seg).
Proof.
  destruct (seg_words seg) as [ws |] eqn:Hws.
  - rewrite (word_entries_pass_through seg ws Hws). clear Hws.
    induction ws as [|w ws IH]; [constructor |].
    cbn [List.filter].
    destruct (is_empty (strip (default "" (w_word w)))) eqn:E;
      cbn [negb]; [exact IH |].
    cbn [map]. constructor; [| exact IH]. cbn [wt_word]. split.
    + intros E0. rewrite E0 in E. discriminate.
    + apply strip_idempotent.
  - pose proof (estimated_word_timings seg Hws) as E. cbv zeta in E.
    rewrite E.
    apply (proj1 (List.Forall_map wt_word
                    (fun w => w <> "" /\ strip w = w) _)).
    rewrite timed_from_words.
    pose proof (split_from_nonempty (strip (default "" (seg_text seg))) "")
      as Hne.
    pose proof (split_from_no_space (strip (default "" (seg_text seg))) ""
                  eq_refl) as Hns.
    fold (split (strip (default "" (seg_text seg)))) in Hne, Hns.
    eapply List.Forall_impl; [| exact (List.Forall_and Hne Hns)].
    intros w [Hw Hw']. split; [exact Hw | now apply no_space_strip].
Qed.





End WordTimingFacts.

(** ** The chunker at and beyond its bounds *)

Module ChunkerBounds.
Import Py Effects Spec Chunker.
Local Open Scope list_scope.

Lemma chunk_loop_singletons {A} (max_words : Z) (ws : list A) :
  max_words <= 1 ->
  forall chunks,
    fold_left (chunk_step max_words) ws (chunks, [])
    = (chunks ++ map (fun w => [w]) ws, []).
Proof.
  intros Hm. induction ws as [|w ws IH]; intros chunks.
  - cbn [fold_left map]. now rewrite app_nil_r.
  - cbn [fold_left map]. unfold chunk_step at 2. cbn [app length].
    destruct (Z.geb_spec (Z.of_nat 1) max_words) as [_ | Hlt]; [| lia].
    rewrite IH, <- app_assoc. reflexivity.
Qed.

(** X7. With a bound of one word, and just as well with a bound of zero or
    below, every word is a chunk of its own. *)
Theorem chunk_words_singletons {A} (words : list A) (max_words : Z) :
  max_words <= 1 ->
  chunk_words words max_words = map (fun w => [w]) words.
Proof.
  intros Hm. unfold chunk_words.
  now rewrite (chunk_loop_singletons max_words words Hm []).
Qed.

Lemma chunk_words_singletons_witness :
  chunk_words ["a"; "b"; "c"] 0 = [["a"]; ["b"]; ["c"]]
  /\ chunk_words ["a"; "b"; "c"] (-5) = [["a"]; ["b"]; ["c"]].
Proof.
  split.
  - apply (chunk_words_singletons ["a"; "b"; "c"] 0). lia.
  - apply (chunk_words_singletons ["a"; "b"; "c"] (-5)). lia.
Defined.

Lemma concat_singletons {A} (ws : list A) :
  concat (map (fun w => [w]) ws) = ws.
Proof. induction ws as [|w ws IH]; [reflexivity |]. cbn. now rewrite IH. Qed.

(** X8. Whatever the bound, chunking loses nothing, adds nothing and keeps
    the order: the chunks put end to end are the words; and no chunk is
    empty. *)
Theorem chunk_words_partition {A} (words : list A) (max_words : Z) :
  concat (chunk_words words max_words) = words
  /\ Forall (fun chunk => chunk <> []) (chunk_words words max_words).
Proof.
  split; [| apply chunk_words_nonempty].
  destruct (Z_le_gt_dec max_words 1) as [Hle | Hgt].
  - unfold chunk_words.
    rewrite (chunk_loop_singletons max_words words Hle []).
    apply concat_singletons.
  - rewrite chunk_words_greedy_chunks by lia.
    apply greedy_chunks_concat; lia.
Qed.

Lemma greedy_chunks_count {A} (n : nat) (fuel : nat) :
  (1 <= n)%nat ->
  forall ws : list A,
    (length ws <= fuel)%nat ->
    Z.of_nat (length (greedy_chunks fuel n ws))
    = (Z.of_nat (length ws) + Z.of_nat n - 1) / Z.of_nat n.
Proof.
  intros Hn. induction fuel as [|fuel IH]; intros ws Hlen.
  - destruct ws; [| simpl in Hlen; lia]. cbn [greedy_chunks length].
    symmetry. apply Z.div_small. lia.
  - destruct ws as [|w ws].
    + cbn [greedy_chunks length]. symmetry. apply Z.div_small. lia.
    + change (greedy_chunks (S fuel) n (w :: ws))
        with (take n (w :: ws) :: greedy_chunks fuel n (drop n (w :: ws))).
      cbn [length]. rewrite Nat2Z.inj_succ, IH
        by (rewrite length_drop; simpl in *; lia).
      rewrite length_drop. cbn [length].
      destruct (Nat.le_gt_cases n (S (length ws))) as [Hge | Hlt].
      * replace (Z.of_nat (S (length ws)) + Z.of_nat n - 1)
          with (Z.of_nat (S (length ws) - n) + Z.of_nat n - 1
                + 1 * Z.of_nat n) by lia.
        rewrite Z.div_add by lia. lia.
      * replace (S (length ws) - n)%nat with 0%nat by lia.
        rewrite (Z.div_small (Z.of_nat 0 + _ - 1)) by lia.
        apply Z.div_unique with (r := Z.of_nat (S (length ws)) - 1); lia.
Qed.

(** X9. For a bound of at least one word, the number of chunks is the number
    of words divided by the bound, rounded up. *)
Theorem chunk_words_count {A} (words : list A) (max_words : Z) :
  1 <= max_words ->
  Z.of_nat (length (chunk_words words max_words))
  = (Z.of_nat (length words) + max_words - 1) / max_words.
Proof.
  intros Hm. rewrite chunk_words_greedy_chunks by exact Hm.
  rewrite greedy_chunks_count by lia. now rewrite Z2Nat.id by lia.
Qed.

Lemma chunk_words_count_witness :
  Z.of_nat (length (chunk_words ["a"; "b"; "c"; "d"; "e"; "f"; "g"] 3))
  = (7 + 3 - 1) / 3.
Proof.
  apply (chunk_words_count ["a"; "b"; "c"; "d"; "e"; "f"; "g"] 3). lia.
Defined.

End ChunkerBounds.

(** ** Theme documents: what [from_dict] accepts, ignores and refuses *)

Module ThemeDocuments.
Import Py ThemeConfig Gui Spec ThemeRoundTrip.

(** X10. Every theme, not only the default one, is read back from the
    document [to_dict] writes for it; so two themes with the same document
    are the same theme. *)
Theorem to_dict_is_faithful (th : SubtitleThemeConfig) :
  from_dict (to_dict th) = Ok th
  /\ (forall th', to_dict th = to_dict th' -> th = th').
Proof.
  split; [apply from_dict_to_dict |].
  intros th' E. pose proof (from_dict_to_dict th) as H.
  rewrite E, from_dict_to_dict in H. now injection H.
Qed.

Lemma not_theme_key (k : string) :
  ~ In k theme_keys ->
  k <> "name" /\ k <> "version" /\ k <> "font" /\ k <> "colors"
  /\ k <> "highlight" /\ k <> "layout" /\ k <> "background"
  /\ k <> "effects" /\ k <> "animation".
Proof.
  intros H. repeat split; intros ->; apply H; cbn; tauto.
Qed.

(** X11. A key [from_dict] does not know is ignored, whatever it holds: the
    document reads as it does without it. A document with none of the known
    keys, like no document at all, gives the defaults. *)
Theorem from_dict_ignores_unknown_keys (d : gmap string value) (k : string)
    (v : value) :
  ~ In k theme_keys ->
  from_dict (VDict (<[k := v]> d)) = from_dict (VDict d)
  /\ from_dict (VDict {[ k := v ]}) = Ok default_theme
  /\ from_dict (VDict ∅) = Ok default_theme
  /\ from_dict VNone = Ok default_theme.
Proof.
  intros Hk.
  destruct (not_theme_key k Hk) as (? & ? & ? & ? & ? & ? & ? & ? & ?).
  split; [| split; [| split; reflexivity]].
  - unfold from_dict, as_dict, get_str, section. cbn [bind].
    now rewrite !lookup_insert_ne by assumption.
  - unfold from_dict, as_dict, get_str, section. cbn [bind].
    now rewrite !lookup_singleton_ne by assumption.
Qed.

Lemma from_dict_ignores_unknown_keys_witness :
  from_dict (VDict (<["author" := VStr "me"]> {[ "name" := VStr "mine" ]}))
  = from_dict (VDict {[ "name" := VStr "mine" ]}).
Proof.
  apply (from_dict_ignores_unknown_keys {[ "name" := VStr "mine" ]}
           "author" (VStr "me")).
  cbn. intros H. repeat (destruct H as [H | H]; [discriminate H |]).
  exact H.
Defined.

Lemma section_not_a_mapping {A} (d : gmap string value) (key : string)
    (v : value) (build : gmap string value -> result A) (current : A) :
  d !! key = Some v -> is_mapping v = false ->
  section d key build current = Raise AttributeError.
Proof.
  intros Hv Hm. unfold section. rewrite Hv. now destruct v.
Qed.

Ltac raise_at_section Hv Hm :=
  repeat match goal with
         | |- exists e, Py.bind (section _ _ _ _) _ = Raise e =>
             first
               [ rewrite (section_not_a_mapping _ _ _ _ _ Hv Hm);
                 eexists; reflexivity
               | let r := fresh "r" in
                 match goal with
                 | |- exists e, Py.bind ?s _ = Raise e =>
                     destruct s as [r | ?];
                     [cbn [bind] | eexists; reflexivity]
                 end ]
         | |- exists e, Py.bind ?s _ = Raise e =>
             let r := fresh "r" in
             destruct s as [r | ?]; [cbn [bind] | eexists; reflexivity]
         end.

(** X12. A section that is present but is not a mapping (a YAML key left
    empty, a number, a text, a list) is not taken as missing: [from_dict]
    raises. So does it on a document that is itself neither a mapping nor
    empty. *)
Theorem from_dict_refuses_non_mappings (d : gmap string value)
    (key : string) (v : value) :
  In key section_keys ->
  d !! key = Some v ->
  is_mapping v = false ->
  (exists e, from_dict (VDict d) = Raise e)
  /\ from_dict (VDict {[ "font" := VNone ]}) = Raise AttributeError
  /\ from_dict (VStr "karaoke") = Raise AttributeError
  /\ from_dict (VList []) = Raise AttributeError.
Proof.
  intros Hkey Hv Hm. split; [| repeat split; reflexivity].
  unfold from_dict. cbn [as_dict bind].
  cbn in Hkey.
  repeat (destruct Hkey as [<- | Hkey]; [raise_at_section Hv Hm |]).
  contradiction.
Qed.

Lemma from_dict_refuses_non_mappings_witness :
  exists e, from_dict (VDict {[ "layout" := VInt 3 ]}) = Raise e.
Proof.
  apply (from_dict_refuses_non_mappings {[ "layout" := VInt 3 ]} "layout"
           (VInt 3)); [cbn; tauto | reflexivity | reflexivity].
Defined.

(** X13. A theme saved from the theme panel under a new name and loaded
    again keeps its font, colours, highlight, effects and animation, but not
    its background settings nor its custom vertical position, which come
    back as the defaults: the written document has neither. It is the theme
    it was only if those already were the defaults. *)
Theorem saved_theme_loses_background (new_name : string)
    (th : SubtitleThemeConfig) :
  from_dict (save_theme_dict new_name th) = Ok (saved_theme new_name th)
  /\ (from_dict (save_theme_dict (name th) th) = Ok th
      <-> version th = "1.0"
          /\ background th = default_background
          /\ layout_custom_y (layout th) = None).
Proof.
  assert (H : forall n, from_dict (save_theme_dict n th) = Ok (saved_theme n th)).
  { intros n. destruct th as [? ? [] [] [] [] [] [[] []] []]. reflexivity. }
  split; [apply H |]. rewrite H. split.
  - intros E. injection E as E. rewrite <- E at 1 2 3.
    repeat split.
  - intros (Hv & Hb & Hy). f_equal.
    destruct th as [? ? ? ? ? [] ? ? ?]. unfold saved_theme.
    cbn in *. now subst.
Qed.

End ThemeDocuments.

(** ** The rendered document as a whole *)

Module Document.
Import Py Effects ThemeConfig SubtitleRenderer Spec StringFacts ColorCodec.
Import Chunker RendererFacts.

Lemma join_empty_cons (p : string) (rest : list string) :
  join "" (p :: rest) = p ++ join "" rest.
Proof.
  destruct rest as [|q rest]; [cbn [join]; now rewrite append_nil_r |].
  reflexivity.
Qed.

Lemma join_empty_app (a b : list string) :
  join "" (a ++ b)%list = join "" a ++ join "" b.
Proof.
  induction a as [|x a IH]; [reflexivity |].
  cbn [app]. now rewrite !join_empty_cons, IH, append_assoc.
Qed.

(** The loop of [render_segments] adds the blocks of the segments, in
    order, to whatever content it starts from. *)
Lemma render_blocks (self : SubtitleRenderer) (fg hl : string) :
  hex_to_ass_color (colors_primary (colors (theme self))) = Ok fg ->
  hex_to_ass_color (colors_highlight (colors (theme self))) = Ok hl ->
  forall segments,
  exists blocks,
    Forall2 (fun seg block => render_segment self seg = Ok block)
      segments blocks
    /\ forall content,
         for_each
           (fun ass_content seg =>
              let* block := render_segment self seg in
              Ok (ass_content ++ block))
           segments content
         = Ok (content ++ join "" blocks).
Proof.
  intros Hfg Hhl segments. induction segments as [|seg segments IH].
  - exists []. split; [constructor |]. intros content.
    cbn [for_each join]. now rewrite append_nil_r.
  - destruct IH as (blocks & Hblocks & Hloop).
    destruct (render_segment_ok self fg hl Hfg Hhl seg) as [block Hblock].
    exists (block :: blocks). split; [now constructor |].
    intros content. cbn [for_each]. rewrite Hblock. cbn [bind].
    now rewrite Hloop, join_empty_cons, append_assoc.
Qed.

Lemma header_converts_colors (self : SubtitleRenderer) (header : string) :
  generate_ass_header self = Ok header ->
  exists fg hl,
    hex_to_ass_color (colors_primary (colors (theme self))) = Ok fg
    /\ hex_to_ass_color (colors_highlight (colors (theme self))) = Ok hl.
Proof.
  unfold generate_ass_header.
  destruct (hex_to_ass_color (colors_primary _)) as [fg |]; [| discriminate].
  destruct (hex_to_ass_color (colors_highlight _)) as [hl |]; [| discriminate].
  intros _. eauto.
Qed.


Lemma Forall2_functional (self : SubtitleRenderer) (segments : list segment) :
  forall b1 b2,
    Forall2 (fun seg block => render_segment self seg = Ok block) segments b1 ->
    Forall2 (fun seg block => render_segment self seg = Ok block) segments b2 ->
    b1 = b2.
Proof.
  induction segments as [|seg segments IH]; intros b1 b2 H1 H2;
    inversion H1; inversion H2; subst; [reflexivity |].
  f_equal; [congruence | now apply IH].
Qed.

(** X15. Rendering two lists of segments one after the other is rendering
    each and putting the second body behind the first document: for one
    renderer, the document of [a ++ b] is the document of [a] followed by
    the document of [b] without its header. *)
Theorem render_segments_app (self : SubtitleRenderer) (a b : list segment)
    (header body_a body_b : string) :
  generate_ass_header self = Ok header ->
  render_segments self a = Ok (header ++ body_a) ->
  render_segments self b = Ok (header ++ body_b) ->
  render_segments self (a ++ b) = Ok (header ++ body_a ++ body_b).
Proof.
  intros Hh Ha Hb.
  destruct (header_converts_colors self header Hh) as (fg & hl & Hfg & Hhl).
  destruct (render_blocks self fg hl Hfg Hhl a) as (ba & Fa & La).
  destruct (render_blocks self fg hl Hfg Hhl b) as (bb & Fb & Lb).
  destruct (render_blocks self fg hl Hfg Hhl (a ++ b)) as (bab & Fab & Lab).
  assert (Ebab : bab = (ba ++ bb)%list).
  { eapply Forall2_functional; [exact Fab |]. now apply Forall2_app. }
  unfold render_segments in *. rewrite Hh in *. cbn [bind] in *.
  rewrite La in Ha. rewrite Lb in Hb. rewrite Lab, Ebab.
  injection Ha as Ha. injection Hb as Hb.
  apply (inj (String.append header)) in Ha, Hb.
  now rewrite join_empty_app, Ha, Hb.
Qed.

Lemma render_segments_app_witness :
  exists header body,
    generate_ass_header default_renderer = Ok header
    /\ render_segments default_renderer [hi_there] = Ok (header ++ body)
    /\ render_segments default_renderer ([hi_there] ++ [hi_there])
       = Ok (header ++ body ++ body).
Proof.
  eexists _, _. split; [reflexivity |]. split; [reflexivity |].
  eapply (render_segments_app default_renderer [hi_there] [hi_there]);
    reflexivity.
Defined.

End Document.

(** ** Effect names and the animation preambles *)

Module EffectNames.
Import Py Effects ThemeConfig SubtitleRenderer Spec StringFacts RendererFacts.

Lemma recognised_effect_cases (n : string) :
  recognised_effect n = true ->
  n = "none" \/ n = "fade" \/ n = "pop" \/ n = "slide_up"
  \/ n = "slide_down" \/ n = "bounce".
Proof.
  unfold recognised_effect. intros H.
  repeat (apply orb_true_iff in H as [H | H]);
    apply String.eqb_eq in H; tauto.
Qed.

(** The catalogue gives the empty fragment for "none" and for the names it
    does not have, and for no other name. *)
Lemma entry_effect_empty (n : string) (duration : Z) :
  is_empty (get_entry_effect n duration) = quiet_effect n.
Proof.
  unfold quiet_effect. destruct (recognised_effect n) eqn:E.
  - apply recognised_effect_cases in E.
    destruct E as [-> | [-> | [-> | [-> | [-> | ->]]]]]; reflexivity.
  - rewrite unrecognised_entry_effect by exact E. now rewrite orb_true_r.
Qed.

Lemma exit_effect_empty (n : string) (duration total_duration : Z) :
  is_empty (get_exit_effect n duration total_duration) = quiet_effect n.
Proof.
  unfold quiet_effect. destruct (recognised_effect n) eqn:E.
  - apply recognised_effect_cases in E.
    destruct E as [-> | [-> | [-> | [-> | [-> | ->]]]]]; reflexivity.
  - rewrite unrecognised_exit_effect by exact E. now rewrite orb_true_r.
Qed.

(** The test for "none" in front of a catalogue lookup changes nothing. *)
Lemma guarded_entry_effect (n : string) (duration : Z) :
  (if neq n "none" then get_entry_effect n duration else "")
  = get_entry_effect n duration.
Proof.
  unfold neq. destruct (String.eqb n "none") eqn:E; [| reflexivity].
  apply String.eqb_eq in E. now subst n.
Qed.

Lemma guarded_exit_effect (n : string) (duration total_duration : Z) :
  (if neq n "none" then get_exit_effect n duration total_duration else "")
  = get_exit_effect n duration total_duration.
Proof.
  unfold neq. destruct (String.eqb n "none") eqn:E; [| reflexivity].
  apply String.eqb_eq in E. now subst n.
Qed.

Lemma is_empty_true (s : string) : is_empty s = true -> s = "".
Proof. now destruct s. Qed.

Lemma is_empty_false (s : string) : is_empty s = false -> s <> "".
Proof. now destruct s. Qed.

(** X16. The plain and the karaoke strategies put an override block in
    front of the text exactly when the entry or the exit effect is a name of
    the catalogue other than "none": with both names "none" or unknown the
    plain event is the bare trimmed text and the karaoke preamble is empty,
    otherwise both start with a non-empty block in braces. *)
Theorem effect_block_iff_catalogued (self : SubtitleRenderer) (seg : segment)
    (duration_ms : Z) :
  let entry := animation_entry (animation (theme self)) in
  let exit := animation_exit (animation (theme self)) in
  let start := format_time_ass (default 0%Q (seg_start seg)) in
  let end_ := format_time_ass (default 0%Q (seg_end seg)) in
  let text := strip (default "" (seg_text seg)) in
  if quiet_effect entry && quiet_effect exit
  then karaoke_preamble self duration_ms = ""
       /\ render_segment_simple self seg = dialogue start end_ text
  else (exists tags,
          tags <> ""
          /\ karaoke_preamble self duration_ms = "{" ++ tags ++ "}")
       /\ (exists tags,
             tags <> ""
             /\ render_segment_simple self seg
                = dialogue start end_ ("{" ++ tags ++ "}" ++ text)).
Proof.
  intros entry exit start end_ text.
  assert (Hk : karaoke_preamble self duration_ms
               = let tags :=
                   get_entry_effect entry
                     (animation_duration (animation (theme self)))
                   ++ get_exit_effect exit
                        (animation_duration (animation (theme self)))
                        duration_ms in
                 if is_empty tags then "" else "{" ++ tags ++ "}").
  { unfold karaoke_preamble. cbv zeta. fold entry exit.
    rewrite guarded_entry_effect, guarded_exit_effect.
    destruct (get_entry_effect entry _) as [|c r].
    - cbn [is_empty negb orb append]. now destruct (get_exit_effect exit _ _).
    - cbn [is_empty negb orb append]. now rewrite append_assoc. }
  assert (Hs : render_segment_simple self seg
               = let tags :=
                   get_entry_effect entry
                     (animation_duration (animation (theme self)))
                   ++ get_exit_effect exit
                        (animation_duration (animation (theme self)))
                        (int_of ((default 0%Q (seg_end seg)
                                  - default 0%Q (seg_start seg)) * 1000)%Q) in
                 dialogue start end_
                   (if is_empty tags then text
                    else "{" ++ tags ++ "}" ++ text)).
  { unfold render_segment_simple. cbv zeta. fold entry exit start end_ text.
    f_equal.
    assert (Hen : (if neq entry "none"
                   then "" ++ get_entry_effect entry
                                (animation_duration (animation (theme self)))
                   else "")
                  = get_entry_effect entry
                      (animation_duration (animation (theme self))))
      by apply guarded_entry_effect.
    rewrite Hen.
    destruct (neq exit "none") eqn:En.
    - now destruct (is_empty _).
    - unfold neq in En. apply negb_false_iff, String.eqb_eq in En.
      rewrite En. change (get_exit_effect "none" _ _) with "".
      rewrite append_nil_r. now destruct (is_empty _). }
  rewrite Hk, Hs. cbv zeta.
  assert (Hempty : forall d,
            is_empty
              (get_entry_effect entry
                 (animation_duration (animation (theme self)))
               ++ get_exit_effect exit
                    (animation_duration (animation (theme self))) d)
            = quiet_effect entry && quiet_effect exit).
  { intros d.
    rewrite <- (entry_effect_empty entry
                  (animation_duration (animation (theme self)))),
      <- (exit_effect_empty exit
            (animation_duration (animation (theme self))) d).
    now destruct (get_entry_effect entry _). }
  rewrite !Hempty.
  destruct (quiet_effect entry && quiet_effect exit) eqn:Q; [now split |].
  split; eexists; (split; [apply is_empty_false, Hempty | reflexivity]).
Qed.

(** X17. The per-word-background strategy does not look the effect names up:
    any entry name other than "none" gives a fade-in of the theme's duration
    and any exit name other than "none" a fade-out, in one block. This holds
    for names outside the catalogue too, for which the karaoke preamble is
    empty. *)
Theorem per_word_preamble_ignores_catalogue (self : SubtitleRenderer) :
  let entry := animation_entry (animation (theme self)) in
  let exit := animation_exit (animation (theme self)) in
  let d := str_int (animation_duration (animation (theme self))) in
  (entry = "none" -> exit = "none" -> fade_preamble self = "")
  /\ (entry <> "none" -> exit = "none" ->
      fade_preamble self = "{\fad(" ++ d ++ ",0)}")
  /\ (entry = "none" -> exit <> "none" ->
      fade_preamble self = "{\fad(0," ++ d ++ ")}")
  /\ (entry <> "none" -> exit <> "none" ->
      fade_preamble self = "{\fad(" ++ d ++ ",0)\fad(0," ++ d ++ ")}")
  /\ (entry <> "none" -> recognised_effect entry = false ->
      recognised_effect exit = false ->
      fade_preamble self <> ""
      /\ forall duration_ms, karaoke_preamble self duration_ms = "").
Proof.
  intros entry exit d.
  assert (Hyes : forall n, n <> "none" -> neq n "none" = true).
  { intros n Hn. unfold neq. apply negb_true_iff. now apply String.eqb_neq. }
  assert (Hno : forall n, n = "none" -> neq n "none" = false).
  { intros n ->. reflexivity. }
  unfold fade_preamble. cbv zeta. fold entry exit d.
  split; [| split; [| split; [| split]]].
  - intros He Hx. now rewrite (Hno _ He), (Hno _ Hx).
  - intros He Hx. rewrite (Hyes _ He), (Hno _ Hx).
    cbn [append is_empty negb].
    repeat (progress (rewrite ?append_assoc; cbn [append])). reflexivity.
  - intros He Hx. rewrite (Hno _ He), (Hyes _ Hx).
    cbn [append is_empty negb].
    repeat (progress (rewrite ?append_assoc; cbn [append])). reflexivity.
  - intros He Hx. rewrite (Hyes _ He), (Hyes _ Hx).
    cbn [append is_empty negb].
    repeat (progress (rewrite ?append_assoc; cbn [append])). reflexivity.
  - intros He Hue Hux. split.
    + rewrite (Hyes _ He). destruct (neq exit "none"); discriminate.
    + intros duration_ms. unfold karaoke_preamble. cbv zeta. fold entry exit.
      rewrite guarded_entry_effect, guarded_exit_effect.
      rewrite unrecognised_entry_effect, unrecognised_exit_effect
        by assumption.
      reflexivity.
Qed.

(** [get_highlight_style]: the style names. *)
Lemma unrecognised_style (style ass_color : string) :
  recognised_style style = false ->
  highlight_styles ass_color !! style = None.
Proof.
  unfold recognised_style. intros H.
  repeat (apply orb_false_iff in H as [H ?]).
  repeat match goal with
         | E : String.eqb _ _ = false |- _ => apply String.eqb_neq in E
         end.
  unfold highlight_styles.
  rewrite !lookup_insert_ne, lookup_singleton_ne by congruence. reflexivity.
Qed.

(** X18. [get_highlight_style] fails exactly when the conversion of the
    colour fails, with the same error and whatever the style is; a style
    name outside color, background, scale, underline, glow gives the tags of
    "color". *)
Theorem get_highlight_style_fallback (style highlight_color : string) :
  (forall e,
     hex_to_ass_color highlight_color = Raise e ->
     get_highlight_style style highlight_color = Raise e)
  /\ (forall ass_color,
        hex_to_ass_color highlight_color = Ok ass_color ->
        exists tags, get_highlight_style style highlight_color = Ok tags)
  /\ (recognised_style style = false ->
      get_highlight_style style highlight_color
      = get_highlight_style "color" highlight_color).
Proof.
  unfold get_highlight_style. repeat split.
  - now intros e ->.
  - intros ass_color ->. cbn [bind]. eauto.
  - intros Hs. destruct (hex_to_ass_color highlight_color) as [a | e];
      [| reflexivity].
    cbn [bind]. now rewrite unrecognised_style.
Qed.

End EffectNames.

(** ** The karaoke strategy without highlighting *)

Module PlainKaraoke.
Import Py Effects ThemeConfig SubtitleRenderer Spec StringFacts Chunker.
Import RendererFacts.





End PlainKaraoke.

(** ** The editor: what reaches the renderer *)

Module GuiFacts.
Import Py Effects ThemeConfig SubtitleRenderer Gui Spec StringFacts.
Import RendererFacts Document.

Lemma render_segment_without_timings (self : SubtitleRenderer)
    (seg : segment) :
  calculate_word_timings seg = [] ->
  render_segment self seg = Ok (render_segment_simple self seg).
Proof.
  intros E. unfold render_segment, render_segment_per_word_background,
    render_segment_karaoke. rewrite E.
  destruct (String.eqb _ "per_word"); [reflexivity |].
  now destruct (highlight_enabled _).
Qed.

(** The dict of a segment always has the key "words": without entries it
    holds the empty list, and the words of the text are not timed. *)
Lemma segment_dict_without_words (s : SubtitleSegment) :
  ss_words s = None \/ ss_words s = Some [] ->
  calculate_word_timings (segment_dict s) = [].
Proof.
  intros [E | E]; unfold calculate_word_timings, segment_dict;
    cbn [seg_words]; now rewrite E.
Qed.

(** X20. A segment of the editor without word entries ([words] is None or
    empty) is rendered as the one plain event of its text by every renderer,
    also by one whose theme highlights words, and whatever its text is: the
    preview and the export never estimate word timings from the text. *)
Theorem untimed_segments_render_plain (self : SubtitleRenderer)
    (s : SubtitleSegment) :
  ss_words s = None \/ ss_words s = Some [] ->
  render_segment self (segment_dict s)
  = Ok (render_segment_simple self (segment_dict s))
  /\ render_segment_simple self (segment_dict s)
     = render_segment_simple self
         {| seg_start := Some (ss_start s); seg_end := Some (ss_end s);
            seg_text := Some (ss_text s); seg_words := None |}.
Proof.
  intros H. split; [| reflexivity].
  apply render_segment_without_timings. now apply segment_dict_without_words.
Qed.

Lemma untimed_segments_render_plain_witness :
  highlight_enabled (highlight (theme default_renderer)) = true
  /\ render_segment default_renderer (segment_dict untimed_segment)
     = Ok ("Dialogue: 0,0:00:01.00,0:00:02.00,Default,,0,0,0,,"
           ++ "{\fscx50\fscy50\t(0,200,\fscx100\fscy100)\fad(0,200)}hi there"
           ++ nl).
Proof.
  split; [reflexivity |].
  refine (eq_trans
            (proj1 (untimed_segments_render_plain default_renderer
                      untimed_segment _)) _).
  - left. reflexivity.
  - vm_compute. reflexivity.
Defined.

(** X21. The export of segments that all lack word entries is the header
    followed by one plain event per segment, in order, whatever the theme's
    highlighting and background style are. *)
Theorem export_ass_without_words (current_theme : SubtitleThemeConfig)
    (segments : list SubtitleSegment) (header : string) :
  let renderer :=
    {| theme := current_theme; video_width := 1080; video_height := 1920 |} in
  generate_ass_header renderer = Ok header ->
  Forall (fun s => ss_words s = None \/ ss_words s = Some []) segments ->
  export_ass current_theme segments
  = Ok (header
        ++ join ""
             (map (fun s => render_segment_simple renderer (segment_dict s))
                segments)).
Proof.
  intros renderer Hh Hall. unfold export_ass. fold renderer.
  destruct (header_converts_colors renderer header Hh)
    as (fg & hl & Hfg & Hhl).
  destruct (render_blocks renderer fg hl Hfg Hhl (map segment_dict segments))
    as (blocks & Hblocks & Hloop).
  unfold render_segments. rewrite Hh. cbn [bind]. rewrite Hloop.
  do 2 f_equal. clear Hloop.
  revert blocks Hblocks.
  induction Hall as [|s segments Hs _ IH]; intros blocks Hblocks;
    inversion Hblocks as [|seg block segs blocks' Hblock Hrest]; subst;
    [reflexivity |].
  cbn [map]. rewrite !join_empty_cons. f_equal; [| now apply IH].
  rewrite render_segment_without_timings in Hblock
    by now apply segment_dict_without_words.
  congruence.
Qed.

Lemma export_ass_without_words_witness :
  exists header,
    generate_ass_header default_renderer = Ok header
    /\ export_ass default_theme [untimed_segment; untimed_segment]
       = Ok (header
             ++ "Dialogue: 0,0:00:01.00,0:00:02.00,Default,,0,0,0,,"
             ++ "{\fscx50\fscy50\t(0,200,\fscx100\fscy100)\fad(0,200)}hi there"
             ++ nl
             ++ "Dialogue: 0,0:00:01.00,0:00:02.00,Default,,0,0,0,,"
             ++ "{\fscx50\fscy50\t(0,200,\fscx100\fscy100)\fad(0,200)}hi there"
             ++ nl).
Proof.
  eexists. split; [reflexivity |].
  refine (eq_trans
            (export_ass_without_words default_theme
               [untimed_segment; untimed_segment] _ _ _) _).
  - reflexivity.
  - repeat constructor.
  - vm_compute. reflexivity.
Defined.

(** X22. An edit of the segment at a valid index replaces its text and
    times and leaves every other segment as it was. When the text is
    unchanged the word entries stay; when it changed they are dropped, and
    from then on every renderer gives the segment as one plain event. *)
Theorem edited_text_renders_plain (segments : list SubtitleSegment)
    (index : Z) (text : string) (start end_ : Q) (seg : SubtitleSegment) :
  0 <= index ->
  segments !! Z.to_nat index = Some seg ->
  let updated := on_subtitle_updated segments index text start end_ in
  length updated = length segments
  /\ (forall j, j <> Z.to_nat index -> updated !! j = segments !! j)
  /\ exists seg',
       updated !! Z.to_nat index = Some seg'
       /\ ss_text seg' = text /\ ss_start seg' = start /\ ss_end seg' = end_
       /\ (text = ss_text seg -> ss_words seg' = ss_words seg)
       /\ (text <> ss_text seg ->
           ss_words seg' = None
           /\ forall self,
                render_segment self (segment_dict seg')
                = Ok (render_segment_simple self (segment_dict seg'))).
Proof.
  intros Hidx Hseg updated.
  pose proof (lookup_lt_Some _ _ _ Hseg) as Hlt.
  assert (Hguard : (0 <=? index) && (index <? Z.of_nat (length segments))
                   = true).
  { apply andb_true_iff. split; [apply Z.leb_le | apply Z.ltb_lt]; lia. }
  unfold updated, on_subtitle_updated. rewrite Hguard, Hseg.
  split; [apply length_insert |].
  split; [intros j Hj; now apply list_lookup_insert_ne |].
  eexists. split; [now apply list_lookup_insert_eq |].
  cbn [ss_text ss_start ss_end ss_words].
  split; [reflexivity |]. split; [reflexivity |]. split; [reflexivity |].
  split.
  - intros ->. now rewrite String.eqb_refl.
  - intros Hchanged. apply String.eqb_neq in Hchanged. rewrite Hchanged.
    split; [reflexivity |].
    intros self. apply render_segment_without_timings.
    apply segment_dict_without_words. now left.
Qed.

Lemma edited_text_renders_plain_witness :
  render_segment default_renderer (segment_dict timed_segment)
  <> Ok (render_segment_simple default_renderer (segment_dict timed_segment))
  /\ exists seg',
       on_subtitle_updated [timed_segment] 0 "hi  there" 1 2 !! 0%nat
       = Some seg'
       /\ render_segment default_renderer (segment_dict seg')
          = Ok ("Dialogue: 0,0:00:01.00,0:00:02.00,Default,,0,0,0,,"
                ++ "{\fscx50\fscy50\t(0,200,\fscx100\fscy100)\fad(0,200)}"
                ++ "hi  there" ++ nl).
Proof.
  split; [vm_compute; discriminate |].
  destruct (edited_text_renders_plain [timed_segment] 0 "hi  there" 1 2
              timed_segment ltac:(lia) eq_refl)
    as (_ & _ & seg' & Hseg' & _ & _ & _ & _ & Hchanged).
  exists seg'. split; [exact Hseg' |].
  destruct (Hchanged ltac:(vm_compute; discriminate)) as [_ Hplain].
  rewrite Hplain.
  vm_compute in Hseg'. injection Hseg' as <-. vm_compute. reflexivity.
Defined.

End GuiFacts.

(** ** The editor's time fields: [_format_time] and [_parse_time] *)

Module EditorTimes.
Import Py Effects Gui Spec StringFacts DigitFacts TimeFormat TimeFormatSigned.






















End EditorTimes.

(** ** Settings the renderer does not read *)

Module UnreadSettings.
Import Py Effects ThemeConfig SubtitleRenderer Spec.

Lemma for_each_ext {A S} (f g : S -> A -> result S) (l : list A) :
  (forall s x, f s x = g s x) ->
  forall s, for_each f l s = for_each g l s.
Proof.
  intros Hfg. induction l as [|x l IH]; intros s; [reflexivity |].
  cbn [for_each]. rewrite Hfg. destruct (g s x); [apply IH | reflexivity].
Qed.

(** X26. The rendered document does not depend on the theme's version,
    shadow colour, highlight mode, style and transition, background padding,
    border radius and opacity, vertical shadow offset, shadow blur and word
    stagger: the renderer gives the same result, document or error, with
    these settings put back to their defaults. In particular a shadow
    colour that is no colour is never noticed. *)
Theorem unread_settings_change_nothing (th : SubtitleThemeConfig)
    (width height : Z) (segments : list segment) :
  render_segments
    {| theme := th; video_width := width; video_height := height |} segments
  = render_segments
      {| theme := rendered_settings th; video_width := width;
         video_height := height |} segments.
Proof.
  unfold render_segments.
  assert (Hheader :
            generate_ass_header
              {| theme := th; video_width := width; video_height := height |}
            = generate_ass_header
                {| theme := rendered_settings th; video_width := width;
                   video_height := height |}) by reflexivity.
  rewrite Hheader. clear Hheader.
  destruct (generate_ass_header _) as [header | e]; [| reflexivity].
  cbn [bind]. apply for_each_ext. intros content seg.
  assert (Hblock :
            render_segment
              {| theme := th; video_width := width; video_height := height |}
              seg
            = render_segment
                {| theme := rendered_settings th; video_width := width;
                   video_height := height |} seg) by reflexivity.
  now rewrite Hblock.
Qed.

Lemma pos_base_other (position : string) :
  position <> "top" -> position <> "center" ->
  default 1 (pos_base !! position) = 1.
Proof.
  intros Htop Hcenter. unfold pos_base.
  destruct (String.eqb position "bottom") eqn:Eb;
    [apply String.eqb_eq in Eb; now subst position |].
  destruct (String.eqb position "custom") eqn:Ec;
    [apply String.eqb_eq in Ec; now subst position |].
  apply String.eqb_neq in Eb, Ec.
  rewrite !lookup_insert_ne, lookup_singleton_ne by congruence. reflexivity.
Qed.

(** X27. Only the positions "top" and "center" are told apart: with any
    other position, "custom" and unknown names included, the renderer gives
    what it gives for "bottom". The vertical place [custom_y] is therefore
    used at the bottom position as well, whenever it is set. *)
Theorem other_positions_render_as_bottom (th : SubtitleThemeConfig)
    (width height : Z) (segments : list segment) :
  layout_position (layout th) <> "top" ->
  layout_position (layout th) <> "center" ->
  render_segments
    {| theme := th; video_width := width; video_height := height |} segments
  = render_segments
      {| theme := at_bottom th; video_width := width;
         video_height := height |} segments.
Proof.
  intros Htop Hcenter. unfold render_segments.
  assert (Hheader :
            generate_ass_header
              {| theme := th; video_width := width; video_height := height |}
            = generate_ass_header
                {| theme := at_bottom th; video_width := width;
                   video_height := height |}).
  { unfold generate_ass_header, get_alignment_code. cbv zeta.
    cbn [theme video_width video_height].
    unfold at_bottom.
    cbn [name version font colors highlight layout background effects
         animation layout_position layout_custom_y layout_alignment
         layout_margin_x layout_margin_y layout_max_words_per_line].
    rewrite (pos_base_other _ Htop Hcenter).
    rewrite (pos_base_other "bottom") by discriminate.
    apply String.eqb_neq in Htop, Hcenter. rewrite Htop, Hcenter.
    reflexivity. }
  rewrite Hheader. clear Hheader.
  destruct (generate_ass_header _) as [header | e]; [| reflexivity].
  cbn [bind]. apply for_each_ext. intros content seg.
  assert (Hblock :
            render_segment
              {| theme := th; video_width := width; video_height := height |}
              seg
            = render_segment
                {| theme := at_bottom th; video_width := width;
                   video_height := height |} seg) by reflexivity.
  now rewrite Hblock.
Qed.

Lemma other_positions_render_as_bottom_witness :
  layout_position (layout (at_bottom custom_theme)) = "bottom"
  /\ render_segments
       {| theme := custom_theme; video_width := 1080; video_height := 1920 |}
       [hi_there]
     = render_segments
         {| theme := at_bottom custom_theme; video_width := 1080;
            video_height := 1920 |} [hi_there].
Proof.
  split; [reflexivity |].
  apply (other_positions_render_as_bottom custom_theme 1080 1920 [hi_there]);
    discriminate.
Defined.

End UnreadSettings.
